(** * Notebook persistence and hot-exit recovery

    A shallow embedding of [NativeEditorStorage]
    (src/client/datascience/interactive-ipynb/nativeEditorStorage.ts):
    the storage tier resolver ([getStoredContents] and its three tiers),
    the migration sweep ([transferStorage]), the hot-exit writer
    ([storeContentsInHotExitFile], [clearHotExit], [writeToStorage]), the
    backup coordinator ([backup]) and the model loader ([loadFromFile],
    [loadContents]).

    The class keeps its state in injected collaborators (a file system,
    two key/value mementos, a clock) and in two private fields; here that
    state is one explicit record which every operation threads through.
    Asynchronous methods run on one logical thread: a method that is not
    interleaved with anything a property depends on is a state-passing
    function, and [backup], whose whole point is what happens while a
    write is suspended, is a step function over the suspension points of
    [writeToStorage]. *)

From Stdlib Require Import ZArith String List Lia Bool DecimalString DecimalNat DecimalFacts.
From stdpp Require Import gmap strings list fin_maps.

Open Scope string_scope.

(** ** Values *)

(** [vscode.Uri], reduced to the three members the class reads:
    [file.scheme], [file.fsPath] and [file.toString()]. *)
Record Uri := mkUri { scheme : string; fsPath : string; uriString : string }.

Inductive Error :=
| FileNotFound (path : string)
| SyntaxError (text : string)
| InvalidNotebookFileError (path : string)
| TypeError (message : string).

(** [isFileNotFoundError] of common/platform/errors. *)
Definition isFileNotFoundError (e : Error) : bool :=
  match e with FileNotFound _ => true | _ => false end.

(** The outcome of a call that may throw (for an [async] method: a promise
    that resolves or rejects). *)
Inductive Result (A : Type) :=
| Ok (a : A)
| Thrown (e : Error).
Arguments Ok {A} a.
Arguments Thrown {A} e.

(** One [traceError] call: the message and the exception handed to it. *)
Record LogEntry := mkLog { message : string; cause : option Error }.

(** JavaScript truthiness of a string: only the empty string is falsy. *)
Definition truthy (s : string) : bool :=
  match s with EmptyString => false | String _ _ => true end.

(** Truthiness of [string | undefined]. *)
Definition truthyOpt (s : option string) : bool :=
  match s with Some s => truthy s | None => false end.

(** Truthiness of [number | undefined]: [0] and [undefined] are falsy. *)
Definition truthyNum (n : option Z) : bool :=
  match n with Some n => negb (n =? 0)%Z | None => false end.

(** [a || b] on [string | undefined] with a string fallback. *)
Definition orElse (a : option string) (b : string) : string :=
  match a with
  | Some s => if truthy s then s else b
  | None => b
  end.

(** A value of the legacy global memento. The class reads it as
    [{ contents?: string; lastModifiedTimeMs?: number }]; the oldest
    format stored a bare string, and the migration flag is a boolean. *)
Inductive MementoValue :=
| MBool (b : bool)
| MString (s : string)
| MRecord (contents : option string) (lastModifiedTimeMs : option Z).

Definition truthyValue (v : MementoValue) : bool :=
  match v with
  | MBool b => b
  | MString s => truthy s
  | MRecord _ _ => true
  end.

(** [data.contents] and [data.lastModifiedTimeMs]; a string or a boolean
    has neither property. *)
Definition valueContents (v : MementoValue) : option string :=
  match v with MRecord c _ => c | _ => None end.

Definition valueLastModified (v : MementoValue) : option Z :=
  match v with MRecord _ t => t | _ => None end.

(** What [JSON.parse] delivers for a hot-exit file, read through the same
    two properties. [None] stands for a falsy parse result ([null]). *)
Record HotExitData := mkHotExit { heContents : option string; heLastModified : option Z }.

(** nbformat cells are opaque to the storage class. *)
Inductive CellData :=
| CodeCell (source : string)
| MarkdownCell (source : string)
| RawCell (source : string).

(** Modelled from the spec: [CellState] of datascience/types, which is not
    among the sources; "exactly one of: not-yet-run, running, finished,
    error". *)
Inductive CellState := init | executing | finished | error.

Record Cell := mkCell {
  id : string;
  cellFile : string;
  line : Z;
  state : CellState;
  data : CellData
}.

(** [json.cells] as the loader uses it: the test [!json.cells] and the
    call [cells.map]. A missing property and a falsy value ([null], [0],
    [false], the empty string) fail the test; an array, also an empty one,
    passes it and has [map]; any other truthy value (a number, a string,
    an object) passes the test and has no [map]. *)
Inductive CellsValue :=
| CellsMissing
| CellsArray (cells : list CellData)
| CellsOther.

(** [Partial<nbformat.INotebookContent>] as the loader reads it:
    [cells], and [metadata.language_info.codemirror_mode.version] when
    that chain exists and ends in a number. *)
Record NotebookContent := mkNotebook {
  nbCellsValue : CellsValue;
  nbCodemirrorVersion : option Z
}.

(** The cell list, when [cells] is an array. *)
Definition nbCells (j : NotebookContent) : option (list CellData) :=
  match nbCellsValue j with
  | CellsArray cells => Some cells
  | _ => None
  end.

(** The fields [loadFromFile] and [loadContents] hand to
    [INotebookModelFactory.createModel], with the [forVSCodeNotebook]
    argument of the same call. The factory is a collaborator; what the
    loader produces is this record. *)
Record ModelOptions := mkModel {
  trusted : bool;
  file : Uri;
  cells : list Cell;
  notebookJson : option NotebookContent;
  indentAmount : option string;
  pythonNumber : option Z;
  initiallyDirty : option bool;
  forVSCodeNotebook : option bool
}.

(** An [INotebookModel] as the storage class uses it: [model.file], and
    [model.getContent()], which reads the content the editor currently
    holds for that object (see [getContent] below). *)
Record Model := mkModelRef { modelFile : Uri; modelId : nat }.

(** The third argument of [load]: absent, a boolean skip flag, or a backup
    id. *)
Inductive LoadOption :=
| OptUndefined
| OptBoolean (b : bool)
| OptString (s : string).

(** ** Collaborators without state

    Functions of other modules and of libraries which the class calls and
    which are not among the sources. *)
Class Services := {
  (** [ICryptoUtils.createHash(key, 'string')] *)
  createHash : string → string;
  (** [IExtensionContext.globalStoragePath] *)
  globalStoragePath : string;
  (** [path.join] and [path.dirname] *)
  pathJoin : string → string → string;
  pathDirname : string → string;
  (** [isUntitledFile] of common/utils/misc *)
  isUntitledFile : Uri → bool;
  (** [ITrustService.isNotebookTrusted(uri, contents)] *)
  isNotebookTrusted : string → string → bool;
  (** [JSON.parse] on notebook text: [Thrown] for a syntax error, [Ok None]
      for a falsy value *)
  parseNotebook : string → Result (option NotebookContent);
  (** [JSON.parse] on a hot-exit file *)
  parseHotExit : string → Result (option HotExitData);
  (** [JSON.stringify({ contents, lastModifiedTimeMs })]; the text of an
      object literal is never empty *)
  stringifyHotExit : string → Z → string;
  stringifyHotExit_truthy : ∀ c t, truthy (stringifyHotExit c t) = true;
  (** [detectIndent(contents).indent] *)
  detectIndent : string → string;
  (** major version of [IJupyterExecution.getUsableJupyterPython()], when
      there is a usable interpreter with a version *)
  usablePythonMajor : option Z;
  (** the value of the n-th call of [uuid()] *)
  uuid : nat → string;
  (** [createCodeCell()] of datascience-ui/common/cellFactory *)
  createCodeCell : CellData;
  (** [Identifiers.EmptyFileName] *)
  EmptyFileName : string
}.

Definition KeyPrefix : string := "notebook-storage-".
Definition NotebookTransferKey : string := "notebook-transfered".

(** ** The state the class works on *)

Record FileStat := mkFile { fileText : string; mtime : Z }.

(** A call of the file system that changes it. *)
Inductive FsOp :=
| OpCreateDirectory (path : string)
| OpWriteFile (path contents : string)
| OpDeleteFile (path : string).

Record World := mkWorld {
  (** [IFileSystem]: path to text and modification time *)
  files : gmap string FileStat;
  (** the global memento: its hidden [_value] object, which [get] and
      [update] read and write *)
  globalStorage : gmap string MementoValue;
  (** the workspace memento, read as [get<string>] *)
  localStorage : gmap string string;
  (** [Date.now()] *)
  clock : Z;
  (** the cancellation tokens whose [isCancellationRequested] is true *)
  cancelled : gset nat;
  (** what [getContent()] returns for each model object *)
  modelContents : gmap nat string;
  (** how many times [uuid()] was called *)
  uuidCount : nat;
  (** [traceError] calls, most recent first *)
  logged : list LogEntry;
  (** changing file-system calls, most recent first *)
  fsOps : list FsOp
}.

Definition setFiles (f : gmap string FileStat) (w : World) : World :=
  mkWorld f (globalStorage w) (localStorage w) (clock w) (cancelled w)
          (modelContents w) (uuidCount w) (logged w) (fsOps w).

Definition setGlobalStorage (g : gmap string MementoValue) (w : World) : World :=
  mkWorld (files w) g (localStorage w) (clock w) (cancelled w)
          (modelContents w) (uuidCount w) (logged w) (fsOps w).

Definition setLocalStorage (l : gmap string string) (w : World) : World :=
  mkWorld (files w) (globalStorage w) l (clock w) (cancelled w)
          (modelContents w) (uuidCount w) (logged w) (fsOps w).

Definition setClock (t : Z) (w : World) : World :=
  mkWorld (files w) (globalStorage w) (localStorage w) t (cancelled w)
          (modelContents w) (uuidCount w) (logged w) (fsOps w).

Definition setCancelled (c : gset nat) (w : World) : World :=
  mkWorld (files w) (globalStorage w) (localStorage w) (clock w) c
          (modelContents w) (uuidCount w) (logged w) (fsOps w).

Definition setModelContents (m : gmap nat string) (w : World) : World :=
  mkWorld (files w) (globalStorage w) (localStorage w) (clock w) (cancelled w)
          m (uuidCount w) (logged w) (fsOps w).

Definition setUuidCount (n : nat) (w : World) : World :=
  mkWorld (files w) (globalStorage w) (localStorage w) (clock w) (cancelled w)
          (modelContents w) n (logged w) (fsOps w).

Definition traceError (msg : string) (ex : option Error) (w : World) : World :=
  mkWorld (files w) (globalStorage w) (localStorage w) (clock w) (cancelled w)
          (modelContents w) (uuidCount w) (mkLog msg ex :: logged w) (fsOps w).

Definition recordOp (op : FsOp) (w : World) : World :=
  mkWorld (files w) (globalStorage w) (localStorage w) (clock w) (cancelled w)
          (modelContents w) (uuidCount w) (logged w) (op :: fsOps w).

(** *** The file system

    [IFileSystem] is a collaborator. Here a call fails in one way only, on a
    path that does not exist; creating a directory and writing a file
    succeed. Every changing call is recorded in [fsOps], also a delete
    that fails. *)

Definition readFile (path : string) (w : World) : Result string :=
  match files w !! path with
  | Some f => Ok (fileText f)
  | None => Thrown (FileNotFound path)
  end.

(** [(await fileSystem.stat(path)).mtime] *)
Definition statMtime (path : string) (w : World) : Result Z :=
  match files w !! path with
  | Some f => Ok (mtime f)
  | None => Thrown (FileNotFound path)
  end.

Definition createDirectory (path : string) (w : World) : Result unit * World :=
  (Ok tt, recordOp (OpCreateDirectory path) w).

Definition writeFile (path contents : string) (w : World) : Result unit * World :=
  (Ok tt,
   recordOp (OpWriteFile path contents)
            (setFiles (<[path := mkFile contents (clock w)]> (files w)) w)).

Definition deleteFile (path : string) (w : World) : Result unit * World :=
  match files w !! path with
  | Some _ => (Ok tt, recordOp (OpDeleteFile path) (setFiles (delete path (files w)) w))
  | None => (Thrown (FileNotFound path), recordOp (OpDeleteFile path) w)
  end.

(** *** Mementos

    [update(key, undefined)] removes the key; [update(key, value)] sets it. *)
Definition mementoUpdate {V} (key : string) (value : option V) (m : gmap string V)
  : gmap string V :=
  match value with
  | Some v => <[key := v]> m
  | None => delete key m
  end.

(** *** Tokens and models *)

(** [cancelToken?.isCancellationRequested], as a condition. *)
Definition isCancellationRequested (tok : option nat) (w : World) : bool :=
  match tok with
  | Some t => bool_decide (t ∈ cancelled w)
  | None => false
  end.

(** [model.getContent()] *)
Definition getContent (m : Model) (w : World) : string :=
  default "" (modelContents w !! modelId m).

(** ** Migration sweep *)

(** One iteration of the [forEach] of [transferStorage]. *)
Definition sweepKey (g : gmap string MementoValue) (k : string)
  : gmap string MementoValue :=
  if String.prefix KeyPrefix k then mementoUpdate k None g else g.

(** [transferStorage]: the flag is set first; [Object.keys] is taken once,
    and every key with the prefix is updated to [undefined]. The guard
    [if (globalStorage._value)] holds for the host's memento, whose
    [_value] is the object behind [get] and [update]. *)
Definition transferStorage (w : World) : World :=
  let g := mementoUpdate NotebookTransferKey (Some (MBool true)) (globalStorage w) in
  let keys := (map_to_list g).*1 in
  setGlobalStorage (foldl sweepKey g keys) w.

(** The entries a sweep would remove: those of the global memento whose
    key starts with the prefix. *)
Definition sweptEntries (w : World) : gmap string MementoValue :=
  filter (λ kv, String.prefix KeyPrefix kv.1 = true) (globalStorage w).

(** ** Storage keys *)

Section Embedding.
Context `{Services}.

Definition getStaticStorageKey (file : Uri) : string :=
  KeyPrefix ++ uriString file.

Definition getHashedFileName (key : string) : string :=
  pathJoin globalStoragePath (createHash key ++ ".ipynb").

(** ** Storage tier resolver *)

(** The block both [getStoredContentsFromFile] and
    [getStoredContentsFromGlobalStorage] contain:
    [if (data && data.lastModifiedTimeMs && file.scheme === 'file')
       { stat = await stat(file.fsPath);
         if (stat.mtime > data.lastModifiedTimeMs) return; }].
    [Ok true] when the method returns [undefined] there. *)
Definition modifiedSince (lastModifiedTimeMs : option Z) (file : Uri) (w : World)
  : Result bool :=
  if truthyNum lastModifiedTimeMs && String.eqb (scheme file) "file" then
    match statMtime (fsPath file) w with
    | Ok mtime => Ok (mtime >? default 0 lastModifiedTimeMs)%Z
    | Thrown exc => Thrown exc
    end
  else Ok false.

(** [if (data && data.contents) return data.contents;] and the implicit
    [undefined] after it. *)
Definition contentsIfAny (contents : option string) : option string :=
  match contents with
  | Some c => if truthy c then Some c else None
  | None => None
  end.

(** The [try] block of [getStoredContentsFromFile]. *)
Definition readHotExitFile (file : Uri) (filePath : string) (w : World)
  : Result (option string) :=
  match readFile filePath w with
  | Thrown exc => Thrown exc
  | Ok contents =>
    match parseHotExit contents with
    | Thrown exc => Thrown exc
    | Ok data =>
      match modifiedSince (data ≫= heLastModified) file w with
      | Thrown exc => Thrown exc
      | Ok true => Ok None
      | Ok false => Ok (contentsIfAny (data ≫= heContents))
      end
    end
  end.

Definition getStoredContentsFromFile (file : Uri) (key : string) (w : World)
  : option string * World :=
  let filePath := getHashedFileName key in
  match readHotExitFile file filePath w with
  | Ok result => (result, w)
  | Thrown exc =>
    (None,
     if isFileNotFoundError exc then w
     else traceError ("Exception reading from temporary storage for " ++ key) (Some exc) w)
  end.

(** [globalStorage.get(key)] followed by the test [if (data)]: a falsy
    value behaves like a missing one in every later condition. *)
Definition truthyData (v : option MementoValue) : option MementoValue :=
  match v with
  | Some d => if truthyValue d then Some d else None
  | None => None
  end.

Definition getStoredContentsFromGlobalStorage (file : Uri) (key : string) (w : World)
  : option string * World :=
  let data := truthyData (globalStorage w !! key) in
  let w := match data with Some _ => transferStorage w | None => w end in
  match modifiedSince (data ≫= valueLastModified) file w with
  | Thrown _ => (None, w)
  | Ok true => (None, w)
  | Ok false => (contentsIfAny (data ≫= valueContents), w)
  end.

Definition getStoredContentsFromLocalStorage (_file : Uri) (key : string) (w : World)
  : option string * World :=
  match localStorage w !! key with
  | Some workspaceData =>
    if truthy workspaceData
    then (Some workspaceData, setLocalStorage (mementoUpdate key None (localStorage w)) w)
    else (None, w)
  | None => (None, w)
  end.

Definition getStoredContents (file : Uri) (backupId : option string) (w : World)
  : option string * World :=
  let key := orElse backupId (getStaticStorageKey file) in
  let '(result, w) := getStoredContentsFromFile file key w in
  if truthyOpt result then (result, w)
  else
    let '(result, w) := getStoredContentsFromGlobalStorage file key w in
    if truthyOpt result then (result, w)
    else getStoredContentsFromLocalStorage file key w.

(** ** Hot-exit writer *)

(** [writeToStorage] is suspended at most twice: in [createDirectory] and
    then in [writeFile], or once in [deleteFile]. A [Job] is the method at
    one of these points, or returned to its caller. *)
Inductive Job :=
| AwaitCreateDirectory (filePath contents : string) (cancelToken : option nat)
| AwaitWriteFile (filePath contents : string)
| AwaitDeleteFile (filePath : string)
| Returned.

(** [writeToStorage] up to its first suspension. *)
Definition writeToStorageStart (filePath : string) (contents : option string)
    (cancelToken : option nat) (w : World) : Job :=
  if negb (isCancellationRequested cancelToken w) then
    if truthyOpt contents
    then AwaitCreateDirectory filePath (default "" contents) cancelToken
    else AwaitDeleteFile filePath
  else Returned.

Definition writeFailure (filePath : string) (exc : Error) (w : World) : World :=
  traceError ("Error writing storage for " ++ filePath ++ ": ") (Some exc) w.

(** The file-system call the job waits for completes, and the method runs
    on to its next suspension or to its end. *)
Definition resume (j : Job) (w : World) : Job * World :=
  match j with
  | AwaitCreateDirectory filePath contents cancelToken =>
    match createDirectory (pathDirname filePath) w with
    | (Ok _, w) =>
      if negb (isCancellationRequested cancelToken w)
      then (AwaitWriteFile filePath contents, w)
      else (Returned, w)
    | (Thrown exc, w) => (Returned, writeFailure filePath exc w)
    end
  | AwaitWriteFile filePath contents =>
    match writeFile filePath contents w with
    | (Ok _, w) => (Returned, w)
    | (Thrown exc, w) => (Returned, writeFailure filePath exc w)
    end
  | AwaitDeleteFile filePath =>
    match deleteFile filePath w with
    | (Ok _, w) => (Returned, w)
    | (Thrown ex, w) =>
      (Returned,
       if isFileNotFoundError ex then w
       else traceError "Failed to delete hotExit file. Possible it does not exist" (Some ex) w)
    end
  | Returned => (Returned, w)
  end.

(** A job run to its end with nothing in between: two resumptions reach
    [Returned] from every job. *)
Definition runJob (j : Job) (w : World) : World :=
  let '(j, w) := resume j w in
  let '(_, w) := resume j w in
  w.

(** [await writeToStorage(filePath, contents, cancelToken)] *)
Definition writeToStorage (filePath : string) (contents : option string)
    (cancelToken : option nat) (w : World) : World :=
  runJob (writeToStorageStart filePath contents cancelToken w) w.

(** [storeContentsInHotExitFile] up to the first suspension of the
    [writeToStorage] it returns. *)
Definition storeContentsInHotExitFileStart (model : Model) (cancelToken : option nat)
    (backupId : option string) (w : World) : Job :=
  let contents := getContent model w in
  let key := orElse backupId (getStaticStorageKey (modelFile model)) in
  let filePath := getHashedFileName key in
  let specialContents :=
    if truthy contents then Some (stringifyHotExit contents (clock w)) else None in
  writeToStorageStart filePath specialContents cancelToken w.

(** [await storeContentsInHotExitFile(model, cancelToken, backupId)] *)
Definition storeContentsInHotExitFile (model : Model) (cancelToken : option nat)
    (backupId : option string) (w : World) : World :=
  runJob (storeContentsInHotExitFileStart model cancelToken backupId w) w.

Definition clearHotExit (file : Uri) (backupId : option string) (w : World) : World :=
  let key := orElse backupId (getStaticStorageKey file) in
  let filePath := getHashedFileName key in
  writeToStorage filePath None None w.

Definition deleteBackup (model : Model) (backupId : string) (w : World) : World :=
  clearHotExit (modelFile model) (Some backupId) w.

(** ** Backup coordinator *)

(** The two private fields of the class, the state around it, and the
    [storeContentsInHotExitFile] call whose [finally] callback has not run
    yet. *)
Record Storage := mkStorage {
  world : World;
  backingUp : bool;
  backupRequested : option (Model * nat);
  inFlight : option Job
}.

(** A call of [backup], up to the point where it hands its promise back:
    while a backup runs the request only replaces [backupRequested];
    otherwise the cycle starts. *)
Definition backup (model : Model) (cancellation : nat) (backupId : option string)
    (s : Storage) : Storage :=
  if backingUp s then
    mkStorage (world s) (backingUp s) (Some (model, cancellation)) (inFlight s)
  else
    mkStorage (world s) true (backupRequested s)
              (Some (storeContentsInHotExitFileStart model (Some cancellation) backupId (world s))).

(** The [finally] callback of [backup]. The follow-up call gets the stored
    model and token and no third argument; its rejection would be logged
    by the [catch] attached to it, and [backup] has none to deliver. *)
Definition backupFinally (s : Storage) : Storage :=
  match backupRequested s with
  | Some (model, cancellation) =>
    backup model cancellation None (mkStorage (world s) false None None)
  | None => mkStorage (world s) false None None
  end.

(** One turn of the event loop for the coordinator: the awaited
    file-system call completes, or, when [writeToStorage] has returned,
    the [finally] callback runs. *)
Definition progress (s : Storage) : Storage :=
  match inFlight s with
  | None => s
  | Some Returned => backupFinally s
  | Some j =>
    let '(j, w) := resume j (world s) in
    mkStorage w (backingUp s) (backupRequested s) (Some j)
  end.

(** What else happens on the thread between two turns: the editor changes
    a model, a token is cancelled, time passes. *)
Definition onWorld (f : World → World) (s : Storage) : Storage :=
  mkStorage (f (world s)) (backingUp s) (backupRequested s) (inFlight s).

Definition edit (model : Model) (contents : string) (w : World) : World :=
  setModelContents (<[modelId model := contents]> (modelContents w)) w.

Definition cancel (tok : nat) (w : World) : World :=
  setCancelled ({[tok]} ∪ cancelled w) w.

Inductive Event :=
| EvBackup (model : Model) (cancellation : nat) (backupId : option string)
| EvProgress
| EvEdit (model : Model) (contents : string)
| EvCancel (tok : nat)
| EvClock (now : Z).

Definition step (s : Storage) (e : Event) : Storage :=
  match e with
  | EvBackup model cancellation backupId => backup model cancellation backupId s
  | EvProgress => progress s
  | EvEdit model contents => onWorld (edit model contents) s
  | EvCancel tok => onWorld (cancel tok) s
  | EvClock now => onWorld (setClock now) s
  end.

Definition run (s : Storage) (es : list Event) : Storage := foldl step s es.

(** [n] turns of the event loop with no other event. *)
Definition drain (n : nat) (s : Storage) : Storage := Nat.iter n progress s.

(** The number of [writeFile] and [deleteFile] calls in a log. *)
Definition isWrite (op : FsOp) : bool :=
  match op with
  | OpWriteFile _ _ | OpDeleteFile _ => true
  | OpCreateDirectory _ => false
  end.

Definition writes (ops : list FsOp) : nat := length (filter (λ op, isWrite op = true) ops).

(** What a job still owes the file system: at most one write or delete. *)
Definition owed (j : Job) : nat :=
  match j with Returned => 0%nat | _ => 1%nat end.

(** ** Model loader *)

Definition createEmptyCell (id : string) : Cell :=
  {| id := id; line := 0; cellFile := EmptyFileName; state := finished;
     data := createCodeCell |}.

(** The callback of [cells.map] in [loadContents]. *)
Definition remapCell (index : nat) (c : CellData) : Cell :=
  {| id := "NotebookImport#" ++ NilZero.string_of_uint (Nat.to_uint index);
     cellFile := EmptyFileName; line := 0; state := finished; data := c |}.

Definition extractPythonMainVersion (notebookData : NotebookContent) : Z :=
  match nbCodemirrorVersion notebookData with
  | Some version => version
  | None => default 3%Z usablePythonMajor
  end.

(** [json && !json.cells]: a cell list, even an empty one, is truthy. *)
Definition lacksCells (json : option NotebookContent) : bool :=
  match json with
  | Some j => match nbCellsValue j with CellsMissing => true | _ => false end
  | None => false
  end.

(** [json ? json.cells : []] *)
Definition cellsOf (json : option NotebookContent) : CellsValue :=
  match json with
  | Some j => nbCellsValue j
  | None => CellsArray []
  end.

(** What [cells.map] throws when [cells] is not an array. *)
Definition notAFunction : Error := TypeError "cells.map is not a function".

(** [loadContents]. The method throws in three places of its own:
    [JSON.parse], the test for a missing cell list, and [cells.map] on a
    value that is not an array; all three come before [uuid()] is called.
    [sendLanguageTelemetry] swallows its own exceptions and touches nothing
    the class reads; it is left out. The collaborators it awaits or calls
    ([detectIndent], [getUsableJupyterPython], [isNotebookTrusted], the
    model factory) are functions here: they answer. *)
Definition loadContents (file : Uri) (contents : option string)
    (isInitiallyDirty : option bool) (trueContents : option string)
    (forVSCodeNotebook : option bool) (w : World) : Result ModelOptions * World :=
  let isInitiallyDirty := default false isInitiallyDirty in
  match (if truthyOpt contents then parseNotebook (default "" contents) else Ok None) with
  | Thrown exc => (Thrown exc, w)
  | Ok json =>
    if lacksCells json then (Thrown (InvalidNotebookFileError (fsPath file)), w) else
    let indentAmount :=
      if truthyOpt contents then Some (detectIndent (default "" contents)) else None in
    match cellsOf json with
    | CellsArray cells =>
      let remapped := imap remapCell cells in
      let '(remapped, w) :=
        if (length remapped =? 0)%nat
        then ([createEmptyCell (uuid (uuidCount w))], setUuidCount (S (uuidCount w)) w)
        else (remapped, w) in
      let pythonNumber :=
        match json with Some j => extractPythonMainVersion j | None => 3%Z end in
      let contentsToCheck :=
        if isInitiallyDirty && bool_decide (trueContents ≠ None)
        then trueContents else contents in
      let isTrusted :=
        if bool_decide (contents = None) || isUntitledFile file then true
        else isNotebookTrusted (uriString file) (default "" contentsToCheck) in
      (Ok {| trusted := isTrusted; file := file; cells := remapped;
             notebookJson := json; indentAmount := indentAmount;
             pythonNumber := Some pythonNumber;
             initiallyDirty := Some isInitiallyDirty;
             forVSCodeNotebook := forVSCodeNotebook |}, w)
    | CellsMissing | CellsOther =>
      (* [cells.map] is not a function; a missing [cells] was thrown on above *)
      (Thrown notAFunction, w)
    end
  end.

(** [typeof options === 'boolean' ? options : !!options] *)
Definition skipDirtyContentsOf (options : LoadOption) : bool :=
  match options with
  | OptBoolean b => b
  | OptString s => truthy s
  | OptUndefined => false
  end.

(** [typeof options === 'string' ? options
       : skipDirtyContents ? undefined : getStaticStorageKey(file)] *)
Definition backupIdOf (file : Uri) (options : LoadOption) : option string :=
  match options with
  | OptString s => Some s
  | _ => if skipDirtyContentsOf options then None else Some (getStaticStorageKey file)
  end.

(** The model of the [catch] block of [loadFromFile]. *)
Definition fallbackModel (file : Uri) (forVSCodeNotebook : option bool) : ModelOptions :=
  {| trusted := true; file := file; cells := [];
     notebookJson := None; indentAmount := None; pythonNumber := None;
     initiallyDirty := None; forVSCodeNotebook := forVSCodeNotebook |}.

(** The first statement of [loadFromFile]:
    [isUntitledFile(file) ? possibleContents : await readFile(file.fsPath)]. *)
Definition readContents (file : Uri) (possibleContents : option string) (w : World)
  : Result (option string) :=
  if isUntitledFile file then Ok possibleContents
  else match readFile (fsPath file) w with
       | Ok text => Ok (Some text)
       | Thrown ex => Thrown ex
       end.

(** [loadFromFile]. Inside its [try] the method awaits [readFile],
    [clearHotExit] and [getStoredContents]; of these only [readFile] can
    throw. Its last statement is [return this.loadContents(...)] with no
    [await]: an [async] method that returns a promise adopts that promise,
    so a rejection of [loadContents] is the rejection of [loadFromFile]
    and never enters the [catch] block. *)
Definition loadFromFile (file : Uri) (possibleContents : option string)
    (options : LoadOption) (forVSCodeNotebook : option bool) (w : World)
  : Result ModelOptions * World :=
  match readContents file possibleContents w with
  | Thrown ex =>
    (Ok (fallbackModel file forVSCodeNotebook),
     traceError ("Failed to load notebook file " ++ uriString file) (Some ex) w)
  | Ok contents =>
    let skipDirtyContents := skipDirtyContentsOf options in
    let backupId := backupIdOf file options in
    let w := if skipDirtyContents then clearHotExit file backupId w else w in
    let '(dirtyContents, w) :=
      if skipDirtyContents then (None, w) else getStoredContents file backupId w in
    if truthyOpt dirtyContents
    then loadContents file dirtyContents (Some true) contents forVSCodeNotebook w
    else loadContents file contents None None forVSCodeNotebook w
  end.

Definition load (file : Uri) (possibleContents : option string)
    (options : LoadOption) (forVSCodeNotebook : option bool) (w : World)
  : Result ModelOptions * World :=
  loadFromFile file possibleContents options forVSCodeNotebook w.

(** The text [loadFromFile] hands to [loadContents] once the read has
    given [contents]: the dirty content when the resolver was asked and
    found some, [contents] otherwise. *)
Definition selectedContents (file : Uri) (contents : option string)
    (options : LoadOption) (w : World) : option string :=
  if skipDirtyContentsOf options then contents
  else
    let dirtyContents := (getStoredContents file (backupIdOf file options) w).1 in
    if truthyOpt dirtyContents then dirtyContents else contents.

(** The three ways in which [loadContents] throws on a text: [JSON.parse]
    rejects it, it parses to a truthy value without a cell list, or it
    parses to a value whose [cells] is not an array. *)
Definition contentFailure (file : Uri) (text : option string) (e : Error) : Prop :=
  truthyOpt text = true
  ∧ (parseNotebook (default "" text) = Thrown e
     ∨ (e = InvalidNotebookFileError (fsPath file)
        ∧ ∃ j, parseNotebook (default "" text) = Ok (Some j)
               ∧ nbCellsValue j = CellsMissing)
     ∨ (e = notAFunction
        ∧ ∃ j, parseNotebook (default "" text) = Ok (Some j)
               ∧ nbCellsValue j = CellsOther)).

End Embedding.

(** ** Requests arriving while a backup is in flight

    [burst s rs s'] holds when the state goes from [s] to [s'] while the
    requests [rs] arrive, in this order, at a coordinator that is backing
    up: between two arrivals the suspended write may move on (but its
    [finally] callback does not run), models may be edited, tokens may be
    cancelled and time may pass. *)
Record Request := mkRequest {
  reqModel : Model;
  reqCancellation : nat;
  reqBackupId : option string
}.

Inductive burst `{Services} : Storage → list Request → Storage → Prop :=
| burst_done s :
    burst s [] s
| burst_request s r rs s' :
    backingUp s = true →
    burst (backup (reqModel r) (reqCancellation r) (reqBackupId r) s) rs s' →
    burst s (r :: rs) s'
| burst_resume s j rs s' :
    inFlight s = Some j →
    j ≠ Returned →
    burst (progress s) rs s' →
    burst s rs s'
| burst_edit s model contents rs s' :
    burst (onWorld (edit model contents) s) rs s' →
    burst s rs s'
| burst_cancel s tok rs s' :
    burst (onWorld (cancel tok) s) rs s' →
    burst s rs s'
| burst_clock s now rs s' :
    burst (onWorld (setClock now) s) rs s' →
    burst s rs s'.

(** The request a non-empty burst ends with. *)
Definition lastRequest (r : Request) (rs : list Request) : Request := List.last rs r.

(** ** A small instance

    Concrete collaborators and states on which the operations can be
    evaluated. *)
Module Demo.

(** The double quote character. *)
Definition dq : string := String (Ascii.Ascii false true false false false true false false) "".

Definition stringify (contents : string) (t : Z) : string :=
  "{" ++ dq ++ "contents" ++ dq ++ ":" ++ dq ++ contents ++ dq ++ ","
      ++ dq ++ "lastModifiedTimeMs" ++ dq ++ ":" ++ NilZero.string_of_int (Z.to_int t) ++ "}".

(** The envelopes the toy [JSON.parse] knows. *)
Definition envelopes : list (string * Z) :=
  [("dirty", 0%Z); ("dirty", 10%Z); ("dirty", 100%Z)].

Definition parseEnvelope (text : string) : Result (option HotExitData) :=
  match List.find (λ e, String.eqb text (stringify e.1 e.2)) envelopes with
  | Some e => Ok (Some (mkHotExit (Some e.1) (Some e.2)))
  | None => Thrown (SyntaxError text)
  end.

Definition noCells : string := "{" ++ dq ++ "metadata" ++ dq ++ ":{}}".
Definition cellsNumber : string := "{" ++ dq ++ "cells" ++ dq ++ ":5}".
Definition emptyCells : string := "{" ++ dq ++ "cells" ++ dq ++ ":[]}".
Definition oneCell : string := "{" ++ dq ++ "cells" ++ dq ++ ":[code]}".

(** The notebooks the toy [JSON.parse] knows; ["dirty"] stands for the
    text of an edited notebook with one markdown cell. *)
Definition parseText (text : string) : Result (option NotebookContent) :=
  if String.eqb text noCells then Ok (Some (mkNotebook CellsMissing None))
  else if String.eqb text cellsNumber then Ok (Some (mkNotebook CellsOther None))
  else if String.eqb text emptyCells then Ok (Some (mkNotebook (CellsArray []) None))
  else if String.eqb text oneCell then Ok (Some (mkNotebook (CellsArray [CodeCell "x = 1"]) (Some 3%Z)))
  else if String.eqb text "dirty" then Ok (Some (mkNotebook (CellsArray [MarkdownCell "# edited"]) None))
  else if String.eqb text "null" then Ok None
  else Thrown (SyntaxError text).

Definition stringify_truthy (c : string) (t : Z) : truthy (stringify c t) = true :=
  eq_refl.

Definition services : Services := {|
  createHash := λ key, "h-" ++ key;
  globalStoragePath := "/gs";
  pathJoin := λ a b, a ++ "/" ++ b;
  pathDirname := λ _, "/gs";
  isUntitledFile := λ u, String.eqb (scheme u) "untitled";
  isNotebookTrusted := λ _ contents, String.eqb contents oneCell;
  parseNotebook := parseText;
  parseHotExit := parseEnvelope;
  stringifyHotExit := stringify;
  stringifyHotExit_truthy := stringify_truthy;
  detectIndent := λ _, " ";
  usablePythonMajor := Some 3%Z;
  uuid := λ n, "uuid-" ++ NilZero.string_of_uint (Nat.to_uint n);
  createCodeCell := CodeCell "";
  EmptyFileName := "2DB9B899-6519-4E1B-88B0-FA728A274115"
|}.

Definition nb : Uri := mkUri "file" "/w/a.ipynb" "file:///w/a.ipynb".
Definition missing : Uri := mkUri "file" "/w/none.ipynb" "file:///w/none.ipynb".

Definition emptyWorld : World :=
  mkWorld ∅ ∅ ∅ 1000 ∅ ∅ 0 [] [].

(** The notebook file on disk, with its text and modification time. *)
Definition onDisk (text : string) (mtime : Z) (w : World) : World :=
  setFiles (<[fsPath nb := mkFile text mtime]> (files w)) w.

(** A hot-exit file for [key] holding an envelope. *)
Definition hotExit (key contents : string) (t : Z) (w : World) : World :=
  setFiles (<[@getHashedFileName services key := mkFile (stringify contents t) t]> (files w)) w.

Definition inGlobal (key : string) (v : MementoValue) (w : World) : World :=
  setGlobalStorage (<[key := v]> (globalStorage w)) w.

Definition inWorkspace (key text : string) (w : World) : World :=
  setLocalStorage (<[key := text]> (localStorage w)) w.

Definition staticKey : string := getStaticStorageKey nb.

Definition hashed (key : string) : string := @getHashedFileName services key.

Definition model1 : Model := mkModelRef nb 1.

Definition idle (w : World) : Storage := mkStorage w false None None.

(** The editor holds text [v] for [model1]. *)
Definition holding (v : string) (w : World) : World := edit model1 v w.


Definition burstStart : Storage :=
  @backup services model1 1 None (idle (holding "v0" emptyWorld)).

Definition burstEnd : Storage :=
  @backup services model1 3 None
    (onWorld (edit model1 "v2")
       (@progress services
          (@backup services model1 2 None
             (onWorld (edit model1 "v1") burstStart)))).



(** A backup id as [generateBackupId] makes them. *)
Definition backupId1 : string := "a.ipynb-6c1f0a2e".

End Demo.

(** ** The rest of the class

    [save], [saveAs], [revert], [generateBackupId] and
    [sendLanguageTelemetry], and what the coordinator keeps true across
    any sequence of events. *)

(** Library functions and a constant the remaining methods use:
    [path.basename], [String.prototype.toLowerCase] and
    [KnownNotebookLanguages] of datascience/constants. *)
Class Platform := {
  pathBasename : string → string;
  toLowerCase : string → string;
  KnownNotebookLanguages : list string
}.

(** The argument of one [model.update] call of [save] or [saveAs]. *)
Inductive ModelUpdate :=
| UpdateSave (oldDirty newDirty : bool)
| UpdateSaveAs (oldDirty newDirty : bool) (target sourceUri : Uri).

(** What [save] and [saveAs] read and write besides the file system: the
    [isTrusted] and [isDirty] properties of the models, the calls of
    [ITrustService.trustNotebook], the calls of [model.update] and the
    [savedAs] events fired, each list most recent first. *)
Record Editor := mkEditor {
  edWorld : World;
  modelIsTrusted : gmap nat bool;
  modelIsDirty : gmap nat bool;
  trustCalls : list (string * string);
  updates : list (nat * ModelUpdate);
  savedAsFired : list (Uri * Uri)
}.

Definition isTrusted (model : Model) (e : Editor) : bool :=
  default false (modelIsTrusted e !! modelId model).

Definition isDirty (model : Model) (e : Editor) : bool :=
  default false (modelIsDirty e !! modelId model).

(** [save]: the write and the trust call are started together and both
    awaited; [model.update] follows when neither failed. *)
Definition save (model : Model) (e : Editor) : Result unit * Editor :=
  let contents := getContent model (edWorld e) in
  let '(written, w) := writeFile (fsPath (modelFile model)) contents (edWorld e) in
  let trustCalls :=
    if isTrusted model e
    then (uriString (modelFile model), contents) :: trustCalls e
    else trustCalls e in
  match written with
  | Ok _ =>
    (Ok tt,
     mkEditor w (modelIsTrusted e) (modelIsDirty e) trustCalls
       ((modelId model, UpdateSave (isDirty model e) false) :: updates e)
       (savedAsFired e))
  | Thrown ex =>
    (Thrown ex,
     mkEditor w (modelIsTrusted e) (modelIsDirty e) trustCalls (updates e) (savedAsFired e))
  end.

(** [saveAs]: as [save], to [file], and the [savedAs] event is fired with
    the new and the old identity. *)
Definition saveAs (model : Model) (file : Uri) (e : Editor) : Result unit * Editor :=
  let old := modelFile model in
  let contents := getContent model (edWorld e) in
  let '(written, w) := writeFile (fsPath file) contents (edWorld e) in
  let trustCalls :=
    if isTrusted model e
    then (uriString file, contents) :: trustCalls e
    else trustCalls e in
  match written with
  | Ok _ =>
    (Ok tt,
     mkEditor w (modelIsTrusted e) (modelIsDirty e) trustCalls
       ((modelId model, UpdateSaveAs (isDirty model e) false file (modelFile model))
          :: updates e)
       ((file, old) :: savedAsFired e))
  | Thrown ex =>
    (Thrown ex,
     mkEditor w (modelIsTrusted e) (modelIsDirty e) trustCalls (updates e) (savedAsFired e))
  end.


Section Remaining.
Context `{Services} `{Platform}.

(** [generateBackupId]: the base name of the file, a dash and a [uuid()]. *)
Definition generateBackupId (model : Model) (w : World) : string * World :=
  (pathBasename (fsPath (modelFile model)) ++ "-" ++ uuid (uuidCount w),
   setUuidCount (S (uuidCount w)) w).

(** [revert]: [await this.loadFromFile(model.file)], the model it returns
    is not used. *)
Definition revert (model : Model) (w : World) : Result unit * World :=
  match loadFromFile (modelFile model) None OptUndefined None w with
  | (Ok _, w) => (Ok tt, w)
  | (Thrown ex, w) => (Thrown ex, w)
  end.


(** The job in flight works on a hot-exit file. *)
Definition hotExitJob (j : Job) : Prop :=
  match j with
  | AwaitCreateDirectory p _ _ | AwaitWriteFile p _ | AwaitDeleteFile p =>
    ∃ key, p = getHashedFileName key
  | Returned => True
  end.

End Remaining.

(** The coordinator's fields agree: a backup is marked as running exactly
    while a store call is outstanding, and a request waits only while one
    is running. *)
Definition wellFormed (s : Storage) : Prop :=
  (backingUp s = true ↔ is_Some (inFlight s))
  ∧ (backingUp s = false → backupRequested s = None).

Definition isBackup (e : Event) : bool :=
  match e with EvBackup _ _ _ => true | _ => false end.




(** The number of [backup] calls among the events. *)
Definition requests (es : list Event) : nat :=
  length (filter (λ e, isBackup e = true) es).

(** 1 when a request waits in [backupRequested]. *)
Definition waiting (s : Storage) : nat :=
  match backupRequested s with Some _ => 1%nat | None => 0%nat end.

(** 1 for a job in flight that still owes its write. *)
Definition owedBy (s : Storage) : nat :=
  match inFlight s with Some j => owed j | None => 0%nat end.

(** ** A small instance of the rest *)
Module Sample.

Definition lowerAscii (a : Ascii.ascii) : Ascii.ascii :=
  let n := Ascii.nat_of_ascii a in
  if (65 <=? n)%nat && (n <=? 90)%nat then Ascii.ascii_of_nat (n + 32) else a.

Fixpoint lower (s : string) : string :=
  match s with
  | EmptyString => EmptyString
  | String a rest => String (lowerAscii a) (lower rest)
  end.

(** What follows the last slash of [s]. *)
Fixpoint afterLastSlash (acc s : string) : string :=
  match s with
  | EmptyString => acc
  | String a rest =>
    if Ascii.eqb a (Ascii.ascii_of_nat 47) then afterLastSlash "" rest
    else afterLastSlash (acc ++ String a "") rest
  end.

Definition platform : Platform := {|
  pathBasename := afterLastSlash "";
  toLowerCase := lower;
  KnownNotebookLanguages := ["python"; "r"; "julia"]
|}.


Definition copy : Uri := mkUri "file" "/w/b.ipynb" "file:///w/b.ipynb".

(** A hot-exit file for [key] that is not JSON. *)
Definition corrupt (key : string) (w : World) : World :=
  setFiles (<[Demo.hashed key := mkFile "garbage" 7]> (files w)) w.

(** The editor around a world, with [Demo.model1] trusted and dirty. *)
Definition editor (w : World) : Editor :=
  mkEditor w {[1%nat := true]} {[1%nat := true]} [] [] [].

(** Requests, an edit, a cancellation and completions, interleaved. *)
Definition events : list Event :=
  [EvBackup Demo.model1 1 None; EvEdit Demo.model1 "v1"; EvBackup Demo.model1 2 None;
   EvProgress; EvClock 1001; EvBackup Demo.model1 3 (Some Demo.backupId1); EvCancel 2;
   EvProgress; EvProgress; EvProgress; EvProgress; EvProgress; EvProgress].

End Sample.

(** * Properties *)

Arguments writes : simpl never.

(** ** Migration sweep *)

Section MigrationSweep.

Lemma sweepKey_lookup g k k' :
  sweepKey g k !! k' =
  if decide (k = k' ∧ String.prefix KeyPrefix k = true) then None else g !! k'.
Proof.
  unfold sweepKey, mementoUpdate.
  destruct (String.prefix KeyPrefix k) eqn:Hp.
  - destruct (decide (k = k')) as [->|Hne].
    + rewrite lookup_delete_eq. rewrite decide_True; auto.
    + rewrite lookup_delete_ne by done. rewrite decide_False; [done|]. tauto.
  - rewrite decide_False; [done|]. intros [_ ?]. discriminate.
Qed.

Lemma foldl_sweepKey_lookup ks g k :
  foldl sweepKey g ks !! k =
  if decide (k ∈ ks ∧ String.prefix KeyPrefix k = true) then None else g !! k.
Proof.
  revert g. induction ks as [|k0 ks IH]; intros g; cbn [foldl].
  - case_decide as H; [|done]. destruct H as [H _]. by apply elem_of_nil in H.
  - rewrite IH, sweepKey_lookup.
    repeat case_decide; try done.
    + exfalso. match goal with H : ¬ _ |- _ => apply H end.
      split; [|tauto]. apply elem_of_cons. tauto.
    + exfalso. match goal with H : ¬ _ |- _ => apply H end.
      destruct H0 as [-> ?]. split; [|done]. apply elem_of_cons. tauto.
    + exfalso. destruct H1 as [Hin Hp]. apply elem_of_cons in Hin as [->|Hin]; tauto.
Qed.

(** The loop over the key snapshot leaves exactly the entries whose key
    does not start with the prefix. *)
Lemma foldl_sweepKey_filter (g : gmap string MementoValue) :
  foldl sweepKey g (map_to_list g).*1 =
  filter (λ kv, String.prefix KeyPrefix kv.1 = false) g.
Proof.
  apply map_eq. intros k. rewrite foldl_sweepKey_lookup.
  destruct (g !! k) as [v|] eqn:Hk.
  - destruct (String.prefix KeyPrefix k) eqn:Hp.
    + rewrite decide_True.
      * symmetry. apply map_lookup_filter_None. right. intros v' _. simpl. congruence.
      * split; [|done]. apply list_elem_of_fmap. exists (k, v). split; [done|].
        by apply elem_of_map_to_list.
    + rewrite decide_False by (intros [_ ?]; discriminate).
      symmetry. apply map_lookup_filter_Some. done.
  - rewrite decide_False.
    + symmetry. apply map_lookup_filter_None. left. done.
    + intros [Hin _]. apply list_elem_of_fmap in Hin as [[k' v] [-> Hin]].
      apply elem_of_map_to_list in Hin. simpl in Hk. congruence.
Qed.

Lemma transferStorage_globalStorage w :
  globalStorage (transferStorage w) =
  filter (λ kv, String.prefix KeyPrefix kv.1 = false)
         (<[NotebookTransferKey := MBool true]> (globalStorage w)).
Proof. unfold transferStorage. simpl. apply foldl_sweepKey_filter. Qed.

Lemma transferStorage_lookup w k :
  globalStorage (transferStorage w) !! k =
  if String.prefix KeyPrefix k then None
  else if decide (k = NotebookTransferKey) then Some (MBool true)
  else globalStorage w !! k.
Proof.
  rewrite transferStorage_globalStorage.
  destruct (String.prefix KeyPrefix k) eqn:Hp.
  - apply map_lookup_filter_None. right. intros v _. simpl. congruence.
  - destruct (decide (k = NotebookTransferKey)) as [->|Hne].
    + apply map_lookup_filter_Some. split; [apply lookup_insert_eq | done].
    + destruct (globalStorage w !! k) as [v|] eqn:Hk.
      * apply map_lookup_filter_Some. split; [|done].
        rewrite lookup_insert_ne by done. done.
      * apply map_lookup_filter_None. left. rewrite lookup_insert_ne by done. done.
Qed.

Lemma sweptEntries_transferStorage w : sweptEntries (transferStorage w) = ∅.
Proof.
  unfold sweptEntries. apply map_eq. intros k. rewrite lookup_empty.
  apply map_lookup_filter_None.
  destruct (String.prefix KeyPrefix k) eqn:Hp.
  - left. rewrite transferStorage_lookup, Hp. done.
  - right. intros v _. simpl. congruence.
Qed.

Lemma transferStorage_eta w :
  transferStorage w = setGlobalStorage (globalStorage (transferStorage w)) w.
Proof. reflexivity. Qed.

Lemma setGlobalStorage_same w : setGlobalStorage (globalStorage w) w = w.
Proof. by destruct w. Qed.

Lemma transferStorage_twice w : transferStorage (transferStorage w) = transferStorage w.
Proof.
  assert (Hg : globalStorage (transferStorage (transferStorage w))
               = globalStorage (transferStorage w)).
  { apply map_eq. intros k. rewrite !transferStorage_lookup.
    destruct (String.prefix KeyPrefix k); [done|]. by case_decide. }
  rewrite (transferStorage_eta (transferStorage w)), Hg.
  apply setGlobalStorage_same.
Qed.

(** C9. The migration sweep sets the persisted flag and removes exactly the
    global-store entries whose key starts with the storage-key prefix; a
    second sweep right after the first finds no such entry, changes
    nothing, and the flag is still true. *)
Theorem C9_migration_sweep_idempotent (w : World) :
  let w1 := transferStorage w in
  let w2 := transferStorage w1 in
  globalStorage w1 !! NotebookTransferKey = Some (MBool true)
  ∧ globalStorage w1 =
      filter (λ kv, String.prefix KeyPrefix kv.1 = false)
             (<[NotebookTransferKey := MBool true]> (globalStorage w))
  ∧ sweptEntries w1 = ∅
  ∧ w2 = w1
  ∧ globalStorage w2 !! NotebookTransferKey = Some (MBool true).
Proof.
  cbn zeta.
  assert (Hflag : globalStorage (transferStorage w) !! NotebookTransferKey = Some (MBool true)).
  { rewrite transferStorage_lookup. reflexivity. }
  split; [exact Hflag|].
  split; [apply transferStorage_globalStorage|].
  split; [apply sweptEntries_transferStorage|].
  rewrite transferStorage_twice. split; [reflexivity | exact Hflag].
Qed.

End MigrationSweep.

(** ** Storage tier resolver *)

Section Tiers.
Context `{Services}.

Lemma contentsIfAny_truthy c d : contentsIfAny c = Some d → truthy d = true.
Proof.
  destruct c as [c|]; simpl; [|done].
  destruct (truthy c) eqn:Hc; [|done]. by intros [= <-].
Qed.

(** The file tier only reads the file system. *)
Lemma readHotExitFile_files file p w w' :
  files w = files w' → readHotExitFile file p w = readHotExitFile file p w'.
Proof.
  intros Hf. unfold readHotExitFile, readFile, modifiedSince, statMtime.
  by rewrite Hf.
Qed.

Lemma getStoredContentsFromFile_truthy file key w d :
  (getStoredContentsFromFile file key w).1 = Some d → truthy d = true.
Proof.
  unfold getStoredContentsFromFile, readHotExitFile.
  destruct (readFile _ w) as [text|e]; [|done].
  destruct (parseHotExit text) as [data|e]; [|done].
  destruct (modifiedSince _ file w) as [[|]|e]; try done.
  simpl. apply contentsIfAny_truthy.
Qed.

Lemma getStoredContentsFromFile_stores file key w :
  files (getStoredContentsFromFile file key w).2 = files w
  ∧ globalStorage (getStoredContentsFromFile file key w).2 = globalStorage w
  ∧ localStorage (getStoredContentsFromFile file key w).2 = localStorage w.
Proof.
  unfold getStoredContentsFromFile.
  destruct (readHotExitFile _ _ w) as [r|e]; [done|].
  by destruct (isFileNotFoundError e).
Qed.

Lemma getStoredContentsFromFile_result_files file key w w' :
  files w = files w' →
  (getStoredContentsFromFile file key w).1 = (getStoredContentsFromFile file key w').1.
Proof.
  intros Hf. unfold getStoredContentsFromFile.
  rewrite (readHotExitFile_files _ _ _ _ Hf).
  by destruct (readHotExitFile _ _ w').
Qed.

Lemma getStoredContentsFromGlobalStorage_truthy file key w d :
  (getStoredContentsFromGlobalStorage file key w).1 = Some d → truthy d = true.
Proof.
  unfold getStoredContentsFromGlobalStorage.
  destruct (modifiedSince _ file _) as [[|]|e]; try done.
  simpl. apply contentsIfAny_truthy.
Qed.

(** The global tier leaves the file system and the workspace store alone,
    and its sweep runs exactly when the key holds a truthy value. *)
Lemma getStoredContentsFromGlobalStorage_stores file key w :
  files (getStoredContentsFromGlobalStorage file key w).2 = files w
  ∧ localStorage (getStoredContentsFromGlobalStorage file key w).2 = localStorage w
  ∧ globalStorage (getStoredContentsFromGlobalStorage file key w).2 =
      match truthyData (globalStorage w !! key) with
      | Some _ => globalStorage (transferStorage w)
      | None => globalStorage w
      end.
Proof.
  unfold getStoredContentsFromGlobalStorage.
  destruct (truthyData (globalStorage w !! key)) as [d|];
    destruct (modifiedSince _ file _) as [[|]|e]; done.
Qed.

Lemma getStoredContentsFromGlobalStorage_hit file key w d :
  (getStoredContentsFromGlobalStorage file key w).1 = Some d →
  is_Some (truthyData (globalStorage w !! key)).
Proof.
  unfold getStoredContentsFromGlobalStorage.
  destruct (truthyData (globalStorage w !! key)) as [v|]; [by eauto|].
  simpl. destruct (modifiedSince None file w) as [[|]|e]; done.
Qed.

Lemma getStoredContentsFromLocalStorage_truthy file key w d :
  (getStoredContentsFromLocalStorage file key w).1 = Some d → truthy d = true.
Proof.
  unfold getStoredContentsFromLocalStorage.
  destruct (localStorage w !! key) as [v|]; [|done].
  destruct (truthy v) eqn:Hv; [|done]. by intros [= <-].
Qed.

Lemma getStoredContentsFromLocalStorage_miss file key w :
  localStorage w !! key = None →
  getStoredContentsFromLocalStorage file key w = (None, w).
Proof. intros Hk. unfold getStoredContentsFromLocalStorage. by rewrite Hk. Qed.

(** A hit in the workspace tier removes the entry it returns. *)
Lemma getStoredContentsFromLocalStorage_hit file key w d :
  (getStoredContentsFromLocalStorage file key w).1 = Some d →
  localStorage w !! key = Some d
  ∧ (getStoredContentsFromLocalStorage file key w).2
    = setLocalStorage (delete key (localStorage w)) w.
Proof.
  unfold getStoredContentsFromLocalStorage.
  destruct (localStorage w !! key) as [v|]; [|done].
  destruct (truthy v); [|done]. by intros [= <-].
Qed.

(** [getStoredContents] in terms of its three tiers. *)
Lemma getStoredContents_unfold file backupId w :
  let key := orElse backupId (getStaticStorageKey file) in
  let t1 := getStoredContentsFromFile file key w in
  let t2 := getStoredContentsFromGlobalStorage file key t1.2 in
  let t3 := getStoredContentsFromLocalStorage file key t2.2 in
  getStoredContents file backupId w =
  match t1.1 with
  | Some c => (Some c, t1.2)
  | None => match t2.1 with
            | Some c => (Some c, t2.2)
            | None => t3
            end
  end.
Proof.
  cbn zeta. unfold getStoredContents.
  set (key := orElse backupId (getStaticStorageKey file)).
  destruct (getStoredContentsFromFile file key w) as [r1 w1] eqn:H1. simpl.
  destruct r1 as [c1|].
  - assert (Ht := getStoredContentsFromFile_truthy file key w c1).
    rewrite H1 in Ht. simpl. by rewrite Ht.
  - simpl.
    destruct (getStoredContentsFromGlobalStorage file key w1) as [r2 w2] eqn:H2. simpl.
    destruct r2 as [c2|]; [|done].
    assert (Ht := getStoredContentsFromGlobalStorage_truthy file key w1 c2).
    rewrite H2 in Ht. simpl. by rewrite Ht.
Qed.

Lemma getStoredContents_truthy file backupId w d :
  (getStoredContents file backupId w).1 = Some d → truthy d = true.
Proof.
  rewrite getStoredContents_unfold.
  destruct (getStoredContentsFromFile _ _ w) as [[c1|] w1] eqn:H1; simpl.
  - intros [= <-]. eapply getStoredContentsFromFile_truthy. by rewrite H1.
  - destruct (getStoredContentsFromGlobalStorage _ _ w1) as [[c2|] w2] eqn:H2; simpl.
    + intros [= <-]. eapply getStoredContentsFromGlobalStorage_truthy. by rewrite H2.
    + apply getStoredContentsFromLocalStorage_truthy.
Qed.

(** The file system is the same after a query. *)
Lemma getStoredContents_files file backupId w :
  files (getStoredContents file backupId w).2 = files w.
Proof.
  rewrite getStoredContents_unfold.
  pose proof (getStoredContentsFromFile_stores file
                (orElse backupId (getStaticStorageKey file)) w) as (Hf1 & _ & _).
  destruct (getStoredContentsFromFile _ _ w) as [[c1|] w1]; simpl in *; [done|].
  pose proof (getStoredContentsFromGlobalStorage_stores file
                (orElse backupId (getStaticStorageKey file)) w1) as (Hf2 & _ & _).
  destruct (getStoredContentsFromGlobalStorage _ _ w1) as [[c2|] w2]; simpl in *;
    [congruence|].
  unfold getStoredContentsFromLocalStorage.
  destruct (localStorage w2 !! _) as [v|]; [|simpl; congruence].
  destruct (truthy v); simpl; congruence.
Qed.

(** A global tier that missed misses again on the state it left. *)
Lemma getStoredContentsFromGlobalStorage_miss_again file key w w' :
  (getStoredContentsFromGlobalStorage file key w).1 = None →
  files w' = files w →
  globalStorage w' = globalStorage (getStoredContentsFromGlobalStorage file key w).2 →
  (getStoredContentsFromGlobalStorage file key w').1 = None.
Proof.
  intros Hmiss Hf Hg.
  pose proof (getStoredContentsFromGlobalStorage_stores file key w) as (_ & _ & Hg1).
  rewrite Hg1 in Hg. clear Hg1.
  unfold getStoredContentsFromGlobalStorage in *.
  assert (Hmod : ∀ t (u v : World), files u = files v →
                   modifiedSince t file u = modifiedSince t file v).
  { intros t u v Huv. unfold modifiedSince, statMtime. by rewrite Huv. }
  destruct (truthyData (globalStorage w !! key)) as [d|] eqn:Hd.
  - (* the sweep ran *)
    assert (Hk : globalStorage w' !! key =
                 if String.prefix KeyPrefix key then None
                 else if decide (key = NotebookTransferKey) then Some (MBool true)
                 else globalStorage w !! key).
    { rewrite Hg. apply transferStorage_lookup. }
    destruct (String.prefix KeyPrefix key).
    + by rewrite Hk.
    + destruct (decide (key = NotebookTransferKey)).
      * by rewrite Hk.
      * rewrite Hk, Hd. simpl in *.
        rewrite (Hmod _ (transferStorage w') (transferStorage w)) by done.
        destruct (modifiedSince _ file (transferStorage w)) as [[|]|]; done.
  - by rewrite Hg, Hd.
Qed.

End Tiers.

Section TierClaims.
Context `{Services}.

(** C7. The dirty-content query tries the content-addressed file store,
    then the legacy global store, then the legacy workspace store, and
    returns the first hit. A hit in the file store leaves both legacy
    stores as they were; a hit in the global store is returned after the
    migration sweep has run and leaves the workspace store as it was; a hit
    in the workspace store is removed from that store by the read, and the
    same query asked again returns nothing. *)
Theorem C7_tier_precedence (file : Uri) (backupId : option string) (w : World) :
  let key := orElse backupId (getStaticStorageKey file) in
  let t1 := getStoredContentsFromFile file key w in
  let t2 := getStoredContentsFromGlobalStorage file key t1.2 in
  let t3 := getStoredContentsFromLocalStorage file key t2.2 in
  let q := getStoredContents file backupId w in
  q.1 = match t1.1 with
        | Some c => Some c
        | None => match t2.1 with Some c => Some c | None => t3.1 end
        end
  ∧ (is_Some t1.1 →
     globalStorage q.2 = globalStorage w ∧ localStorage q.2 = localStorage w)
  ∧ (t1.1 = None → is_Some t2.1 →
     globalStorage q.2 = globalStorage (transferStorage w)
     ∧ localStorage q.2 = localStorage w)
  ∧ (t1.1 = None → t2.1 = None → is_Some t3.1 →
     localStorage q.2 = delete key (localStorage w)
     ∧ (getStoredContents file backupId q.2).1 = None).
Proof.
  cbn zeta.
  set (key := orElse backupId (getStaticStorageKey file)).
  pose proof (getStoredContents_unfold file backupId w) as Hq. cbn zeta in Hq.
  fold key in Hq.
  pose proof (getStoredContentsFromFile_stores file key w) as (Hf1 & Hg1 & Hl1).
  destruct (getStoredContentsFromFile file key w) as [r1 w1] eqn:E1. simpl in *.
  pose proof (getStoredContentsFromGlobalStorage_stores file key w1) as (Hf2 & Hl2 & Hg2).
  pose proof (getStoredContentsFromGlobalStorage_hit file key w1) as Hhit2.
  destruct (getStoredContentsFromGlobalStorage file key w1) as [r2 w2] eqn:E2. simpl in *.
  split; [|split; [|split]].
  - rewrite Hq. destruct r1; [done|]. by destruct r2.
  - intros [c ->]. rewrite Hq. done.
  - intros -> [c ->]. rewrite Hq. simpl.
    destruct (Hhit2 c eq_refl) as [d Hd]. rewrite Hd in Hg2.
    split; [|congruence].
    rewrite Hg2. unfold transferStorage. simpl. by rewrite Hg1.
  - intros -> -> [d Hd].
    destruct (getStoredContentsFromLocalStorage_hit file key w2 d Hd) as [Hk Hw'].
    rewrite Hq. simpl. rewrite Hw'. simpl.
    split; [congruence|].
    set (w' := setLocalStorage (delete key (localStorage w2)) w2).
    pose proof (getStoredContents_unfold file backupId w') as Hq'. cbn zeta in Hq'.
    fold key in Hq'. rewrite Hq'. clear Hq'.
    pose proof (getStoredContentsFromFile_stores file key w') as (Hf1' & Hg1' & Hl1').
    assert (Hr1' : (getStoredContentsFromFile file key w').1 = None).
    { rewrite (getStoredContentsFromFile_result_files file key w' w).
      - by rewrite E1.
      - simpl. congruence. }
    destruct (getStoredContentsFromFile file key w') as [r1' w1']. simpl in *. subst r1'.
    pose proof (getStoredContentsFromGlobalStorage_stores file key w1') as (Hf2' & Hl2' & _).
    assert (Hr2' : (getStoredContentsFromGlobalStorage file key w1').1 = None).
    { apply (getStoredContentsFromGlobalStorage_miss_again file key w1).
      - by rewrite E2.
      - congruence.
      - rewrite E2. simpl. done. }
    destruct (getStoredContentsFromGlobalStorage file key w1') as [r2' w2']. simpl in *.
    subst r2'.
    rewrite getStoredContentsFromLocalStorage_miss; [done|].
    rewrite Hl2', Hl1'. apply lookup_delete_eq.
Qed.

(** C3 (amended). A stored record whose [lastModifiedTimeMs] is a non-zero
    [T], for an identity of scheme [file] whose file exists with a
    modification time strictly greater than [T], is ignored by the tier
    that holds it, in the file store and in the legacy global store alike.
    The query does not stop there: it goes on to the tiers below, and it
    returns nothing when they hold nothing for the key. *)
Theorem C3_stale_record_ignored (file : Uri) (backupId : option string)
    (w : World) (T mtime : Z) :
  let key := orElse backupId (getStaticStorageKey file) in
  T ≠ 0%Z →
  scheme file = "file" →
  statMtime (fsPath file) w = Ok mtime →
  (T < mtime)%Z →
  (∀ text c,
     readFile (getHashedFileName key) w = Ok text →
     parseHotExit text = Ok (Some (mkHotExit c (Some T))) →
     (getStoredContentsFromFile file key w).1 = None
     ∧ (globalStorage w !! key = None → localStorage w !! key = None →
        (getStoredContents file backupId w).1 = None))
  ∧ (∀ c,
     globalStorage w !! key = Some (MRecord c (Some T)) →
     (getStoredContentsFromGlobalStorage file key w).1 = None
     ∧ (files w !! getHashedFileName key = None → localStorage w !! key = None →
        (getStoredContents file backupId w).1 = None)).
Proof.
  cbn zeta. intros HT Hscheme Hstat Hlt.
  set (key := orElse backupId (getStaticStorageKey file)).
  assert (Hmod : ∀ w', files w' = files w →
                   modifiedSince (Some T) file w' = Ok true).
  { intros w' Hf. unfold modifiedSince. simpl.
    rewrite Hscheme. simpl.
    replace (T =? 0)%Z with false by (symmetry; by apply Z.eqb_neq).
    simpl. unfold statMtime in *. rewrite Hf.
    destruct (files w !! fsPath file) as [f|]; [|done].
    injection Hstat as ->. f_equal. rewrite Z.gtb_ltb. by apply Z.ltb_lt. }
  pose proof (getStoredContents_unfold file backupId w) as Hq. cbn zeta in Hq.
  fold key in Hq.
  split.
  - intros text c Hread Hparse.
    assert (Ht1 : getStoredContentsFromFile file key w = (None, w)).
    { unfold getStoredContentsFromFile, readHotExitFile.
      rewrite Hread, Hparse. simpl. by rewrite Hmod. }
    rewrite Ht1 in *. split; [done|].
    intros Hg Hl. rewrite Hq. simpl.
    unfold getStoredContentsFromGlobalStorage. rewrite Hg. simpl.
    by rewrite getStoredContentsFromLocalStorage_miss.
  - intros c Hg.
    assert (Ht2 : ∀ w', files w' = files w → globalStorage w' = globalStorage w →
              getStoredContentsFromGlobalStorage file key w' = (None, transferStorage w')).
    { intros w' Hf Hg'. unfold getStoredContentsFromGlobalStorage.
      rewrite Hg', Hg. simpl. by rewrite Hmod. }
    split; [by rewrite Ht2|].
    intros Hmissing Hl.
    assert (Ht1 : getStoredContentsFromFile file key w = (None, w)).
    { unfold getStoredContentsFromFile, readHotExitFile, readFile.
      by rewrite Hmissing. }
    rewrite Hq, Ht1. simpl. rewrite Ht2 by done. simpl.
    by rewrite getStoredContentsFromLocalStorage_miss.
Qed.

End TierClaims.

(** *** The tier claims on the small instance *)

Section TierExamples.
Import Demo.

(** With a record in each tier the file store wins and the legacy stores
    are left alone; a global entry is returned after the sweep, which
    removes it, and the workspace entry stays; a workspace entry is
    returned once and is gone afterwards. *)
Lemma C7_tier_precedence_witness :
  (let w := hotExit staticKey "dirty" 100
              (inWorkspace staticKey "older"
                 (inGlobal staticKey (MRecord (Some "global") (Some 100%Z))
                    (onDisk oneCell 20 emptyWorld))) in
   let q := @getStoredContents services nb None w in
   q.1 = Some "dirty"
   ∧ globalStorage q.2 = globalStorage w
   ∧ localStorage q.2 = localStorage w)
  ∧ (let w := inWorkspace staticKey "older"
                (inGlobal staticKey (MRecord (Some "global") (Some 100%Z))
                   (onDisk oneCell 20 emptyWorld)) in
     let q := @getStoredContents services nb None w in
     q.1 = Some "global"
     ∧ globalStorage q.2 = globalStorage (transferStorage w)
     ∧ globalStorage q.2 !! staticKey = None
     ∧ localStorage q.2 = localStorage w)
  ∧ (let w := inWorkspace staticKey "older" (onDisk oneCell 20 emptyWorld) in
     let q := @getStoredContents services nb None w in
     q.1 = Some "older"
     ∧ localStorage q.2 = delete staticKey (localStorage w)
     ∧ (@getStoredContents services nb None q.2).1 = None).
Proof.
  split; [|split].
  - pose proof (@C7_tier_precedence services nb None
                  (hotExit staticKey "dirty" 100
                     (inWorkspace staticKey "older"
                        (inGlobal staticKey (MRecord (Some "global") (Some 100%Z))
                           (onDisk oneCell 20 emptyWorld)))))
      as (Hfirst & Hfile & _ & _).
    cbn zeta in *.
    destruct Hfile as [Hg Hl].
    + exists "dirty". vm_compute. reflexivity.
    + split; [|split].
      * rewrite Hfirst. vm_compute. reflexivity.
      * exact Hg.
      * exact Hl.
  - pose proof (@C7_tier_precedence services nb None
                  (inWorkspace staticKey "older"
                     (inGlobal staticKey (MRecord (Some "global") (Some 100%Z))
                        (onDisk oneCell 20 emptyWorld))))
      as (Hfirst & _ & Hglobal & _).
    cbn zeta in *.
    destruct Hglobal as [Hg Hl].
    + vm_compute. reflexivity.
    + exists "global". vm_compute. reflexivity.
    + split; [|split; [|split]].
      * rewrite Hfirst. vm_compute. reflexivity.
      * exact Hg.
      * rewrite Hg. vm_compute. reflexivity.
      * exact Hl.
  - pose proof (@C7_tier_precedence services nb None
                  (inWorkspace staticKey "older" (onDisk oneCell 20 emptyWorld)))
      as (Hfirst & _ & _ & Hws).
    cbn zeta in *.
    destruct Hws as [Hl Hagain].
    + vm_compute. reflexivity.
    + vm_compute. reflexivity.
    + exists "older". vm_compute. reflexivity.
    + split; [|split].
      * rewrite Hfirst. vm_compute. reflexivity.
      * exact Hl.
      * exact Hagain.
Defined.

(** A record taken at time 10 for a file modified at time 20 is ignored,
    whether it sits in the file store or in the global store. *)
Lemma C3_stale_record_ignored_witness :
  (let w := hotExit staticKey "dirty" 10 (onDisk oneCell 20 emptyWorld) in
   (@getStoredContentsFromFile services nb staticKey w).1 = None
   ∧ (@getStoredContents services nb None w).1 = None)
  ∧ (let w := inGlobal staticKey (MRecord (Some "dirty") (Some 10%Z))
                (onDisk oneCell 20 emptyWorld) in
     (getStoredContentsFromGlobalStorage nb staticKey w).1 = None
     ∧ (@getStoredContents services nb None w).1 = None).
Proof.
  split.
  - pose proof (@C3_stale_record_ignored services nb None
                  (hotExit staticKey "dirty" 10 (onDisk oneCell 20 emptyWorld))
                  10%Z 20%Z) as Hc.
    cbn zeta in Hc.
    destruct Hc as [Hfile _].
    + discriminate.
    + reflexivity.
    + vm_compute. reflexivity.
    + lia.
    + destruct (Hfile (stringify "dirty" 10) (Some "dirty")) as [Ht Hq].
      * vm_compute. reflexivity.
      * vm_compute. reflexivity.
      * split; [exact Ht|]. apply Hq; vm_compute; reflexivity.
  - pose proof (@C3_stale_record_ignored services nb None
                  (inGlobal staticKey (MRecord (Some "dirty") (Some 10%Z))
                     (onDisk oneCell 20 emptyWorld))
                  10%Z 20%Z) as Hc.
    cbn zeta in Hc.
    destruct Hc as [_ Hglobal].
    + discriminate.
    + reflexivity.
    + vm_compute. reflexivity.
    + lia.
    + destruct (Hglobal (Some "dirty")) as [Ht Hq].
      * vm_compute. reflexivity.
      * split; [exact Ht|]. apply Hq; vm_compute; reflexivity.
Defined.

(** C3 as stated fails twice. A record whose [lastModifiedTimeMs] is 0 is
    returned although the file was modified later (at 5); and a stale
    record in the file store (taken at 10, file modified at 20) does not
    make the query return nothing when the workspace store has an entry:
    that entry is returned. *)
Lemma C3_counterexample :
  (let w := hotExit staticKey "dirty" 0 (onDisk oneCell 5 emptyWorld) in
   scheme nb = "file"
   ∧ statMtime (fsPath nb) w = Ok 5%Z
   ∧ readFile (hashed staticKey) w = Ok (stringify "dirty" 0)
   ∧ parseEnvelope (stringify "dirty" 0) = Ok (Some (mkHotExit (Some "dirty") (Some 0%Z)))
   ∧ (0 < 5)%Z
   ∧ (@getStoredContents services nb None w).1 = Some "dirty")
  ∧ (let w := inWorkspace staticKey "older"
                (hotExit staticKey "dirty" 10 (onDisk oneCell 20 emptyWorld)) in
     statMtime (fsPath nb) w = Ok 20%Z
     ∧ (10 < 20)%Z
     ∧ (@getStoredContentsFromFile services nb staticKey w).1 = None
     ∧ (@getStoredContents services nb None w).1 = Some "older").
Proof. vm_compute. repeat split; reflexivity. Qed.

End TierExamples.

(** ** Hot-exit writer *)

Section Writer.
Context `{Services}.

Lemma writes_cons op ops :
  writes (op :: ops) = (if isWrite op then 1 else 0) + writes ops.
Proof.
  unfold writes. rewrite filter_cons.
  destruct (isWrite op); [rewrite decide_True by done | rewrite decide_False by done];
    reflexivity.
Qed.

(** A resumption changes neither the models, the tokens, the clock nor the
    mementos. *)
Lemma resume_frame j w :
  modelContents (resume j w).2 = modelContents w
  ∧ cancelled (resume j w).2 = cancelled w
  ∧ clock (resume j w).2 = clock w
  ∧ globalStorage (resume j w).2 = globalStorage w
  ∧ localStorage (resume j w).2 = localStorage w.
Proof.
  destruct j as [p c t|p c|p|]; simpl; try done.
  - by destruct (negb _).
  - unfold deleteFile. by destruct (files w !! p).
Qed.

Lemma resume_owed j w :
  (writes (fsOps (resume j w).2) + owed (resume j w).1 ≤ writes (fsOps w) + owed j)%nat.
Proof.
  destruct j as [p c t|p c|p|]; cbn.
  - destruct (negb _); cbn; rewrite writes_cons; cbn; lia.
  - rewrite writes_cons. cbn. lia.
  - unfold deleteFile. destruct (files w !! p); cbn; rewrite writes_cons; cbn; lia.
  - lia.
Qed.

(** Two resumptions finish every job. *)
Lemma resume_twice_Returned j w :
  (resume (resume j w).1 (resume j w).2).1 = Returned.
Proof.
  destruct j as [p c t|p c|p|]; simpl; try done.
  - by destruct (negb _).
  - unfold deleteFile. by destruct (files w !! p).
Qed.

Lemma runJob_eq j w : runJob j w = (resume (resume j w).1 (resume j w).2).2.
Proof.
  unfold runJob. destruct (resume j w) as [j1 w1]. simpl.
  by destruct (resume j1 w1).
Qed.

Lemma runJob_Returned w : runJob Returned w = w.
Proof. done. Qed.

Lemma runJob_frame j w :
  modelContents (runJob j w) = modelContents w
  ∧ cancelled (runJob j w) = cancelled w
  ∧ clock (runJob j w) = clock w.
Proof.
  rewrite runJob_eq.
  pose proof (resume_frame j w) as (Hm1 & Hc1 & Ht1 & _).
  pose proof (resume_frame (resume j w).1 (resume j w).2) as (Hm2 & Hc2 & Ht2 & _).
  repeat split; congruence.
Qed.

Lemma runJob_writes j w :
  (writes (fsOps (runJob j w)) ≤ writes (fsOps w) + owed j)%nat.
Proof.
  rewrite runJob_eq.
  pose proof (resume_owed j w).
  pose proof (resume_owed (resume j w).1 (resume j w).2).
  lia.
Qed.

Lemma isCancellationRequested_frame tok w w' :
  cancelled w' = cancelled w →
  isCancellationRequested tok w' = isCancellationRequested tok w.
Proof. intros Hc. unfold isCancellationRequested. by rewrite Hc. Qed.

Lemma getContent_frame m w w' :
  modelContents w' = modelContents w → getContent m w' = getContent m w.
Proof. intros Hm. unfold getContent. by rewrite Hm. Qed.

(** The job a store call starts owes at most one write. *)
Lemma storeContentsInHotExitFileStart_owed model tok backupId w :
  (owed (storeContentsInHotExitFileStart model tok backupId w) ≤ 1)%nat.
Proof.
  unfold storeContentsInHotExitFileStart, writeToStorageStart.
  destruct (negb _); [|simpl; lia].
  destruct (truthyOpt _); simpl; lia.
Qed.

(** A store call for empty content is the delete call of [clearHotExit],
    under the token of the store call. *)
Lemma storeContentsInHotExitFileStart_empty model tok backupId w :
  getContent model w = "" →
  storeContentsInHotExitFileStart model tok backupId w =
  writeToStorageStart
    (getHashedFileName (orElse backupId (getStaticStorageKey (modelFile model))))
    None tok w.
Proof. intros Hc. unfold storeContentsInHotExitFileStart. by rewrite Hc. Qed.

(** A store call that is not cancelled, for non-empty content: the
    directory is created and the envelope written. *)
Lemma storeContentsInHotExitFile_write model tok backupId w :
  isCancellationRequested tok w = false →
  truthy (getContent model w) = true →
  let p := getHashedFileName (orElse backupId (getStaticStorageKey (modelFile model))) in
  let text := stringifyHotExit (getContent model w) (clock w) in
  storeContentsInHotExitFile model tok backupId w =
  recordOp (OpWriteFile p text)
    (setFiles (<[p := mkFile text (clock w)]> (files w))
       (recordOp (OpCreateDirectory (pathDirname p)) w)).
Proof.
  intros Hc Ht. cbn zeta.
  unfold storeContentsInHotExitFile, storeContentsInHotExitFileStart, writeToStorageStart.
  rewrite Hc, Ht. simpl. rewrite stringifyHotExit_truthy.
  unfold runJob. simpl.
  rewrite (isCancellationRequested_frame tok w) by done.
  by rewrite Hc.
Qed.

(** The delete call completes: the file is gone afterwards, and a missing
    file is no failure and is not logged. *)
Lemma resume_AwaitDeleteFile p w :
  resume (AwaitDeleteFile p) w =
  (Returned, recordOp (OpDeleteFile p) (setFiles (delete p (files w)) w)).
Proof.
  unfold resume, deleteFile.
  destruct (files w !! p) as [f|] eqn:Hp; simpl; [done|].
  rewrite delete_id by done. by destruct w.
Qed.

Lemma writeToStorage_delete p tok w :
  isCancellationRequested tok w = false →
  writeToStorage p None tok w =
  recordOp (OpDeleteFile p) (setFiles (delete p (files w)) w).
Proof.
  intros Hc. unfold writeToStorage, writeToStorageStart. rewrite Hc. simpl.
  unfold runJob. by rewrite resume_AwaitDeleteFile.
Qed.

(** A cancelled call touches nothing. *)
Lemma writeToStorage_cancelled p contents tok w :
  isCancellationRequested tok w = true →
  writeToStorage p contents tok w = w.
Proof. intros Hc. unfold writeToStorage, writeToStorageStart. by rewrite Hc. Qed.

End Writer.

(** ** Backup coordinator *)

Section Coordinator.
Context `{Services}.

Lemma drain_add n m s : drain (n + m) s = drain n (drain m s).
Proof. unfold drain. apply Nat.iter_add. Qed.

Lemma drain_succ_r n s : drain (S n) s = drain n (progress s).
Proof. unfold drain. apply Nat.iter_succ_r. Qed.

Lemma progress_idle s : inFlight s = None → progress s = s.
Proof. intros Hj. unfold progress. by rewrite Hj. Qed.

Lemma drain_idle n s : inFlight s = None → drain n s = s.
Proof.
  intros Hj. induction n as [|n IH]; [done|].
  rewrite drain_succ_r, progress_idle; done.
Qed.

(** Once nothing is in flight, further turns change nothing. *)
Lemma drain_settled k n s :
  inFlight (drain k s) = None → (k ≤ n)%nat → drain n s = drain k s.
Proof.
  intros Hj Hle. replace n with ((n - k) + k)%nat by lia.
  rewrite drain_add. by apply drain_idle.
Qed.

Lemma progress_resume s j :
  inFlight s = Some j → j ≠ Returned →
  progress s =
  mkStorage (resume j (world s)).2 (backingUp s) (backupRequested s)
            (Some (resume j (world s)).1).
Proof.
  intros Hj Hne. unfold progress. rewrite Hj.
  destruct j; try done; by destruct (resume _ (world s)).
Qed.

Lemma progress_Returned s :
  inFlight s = Some Returned → progress s = backupFinally s.
Proof. intros Hj. unfold progress. by rewrite Hj. Qed.

(** The [finally] callback reads the state around the class and the
    pending request, nothing else. *)
Lemma backupFinally_ext s s' :
  world s = world s' → backupRequested s = backupRequested s' →
  backupFinally s = backupFinally s'.
Proof. intros Hw Hr. unfold backupFinally. by rewrite Hw, Hr. Qed.

Lemma Job_Returned_dec (j : Job) : {j = Returned} + {j ≠ Returned}.
Proof. destruct j; (by left) || (by right). Qed.

(** The turns of one write cycle: at most two resumptions bring the job to
    its end, and the next turn runs the [finally] callback. *)
Lemma drain_cycle s j :
  inFlight s = Some j →
  ∃ k, (k ≤ 3)%nat ∧
    drain k s =
    backupFinally (mkStorage (runJob j (world s)) (backingUp s) (backupRequested s)
                             (Some Returned)).
Proof.
  intros Hj.
  destruct (Job_Returned_dec j) as [->|Hne].
  { exists 1%nat. split; [lia|].
    rewrite drain_succ_r, progress_Returned by done. simpl.
    by apply backupFinally_ext. }
  pose proof (progress_resume s j Hj Hne) as Hp1.
  pose proof (resume_twice_Returned j (world s)) as Hend.
  pose proof (runJob_eq j (world s)) as Hrun.
  destruct (resume j (world s)) as [j1 w1] eqn:E1. simpl in *.
  destruct (Job_Returned_dec j1) as [->|Hne1].
  { exists 2%nat. split; [lia|].
    rewrite !drain_succ_r, Hp1, progress_Returned by done. simpl.
    apply backupFinally_ext; [|done]. simpl. by rewrite Hrun. }
  exists 3%nat. split; [lia|].
  rewrite !drain_succ_r, Hp1.
  rewrite (progress_resume (mkStorage w1 (backingUp s) (backupRequested s) (Some j1)) j1
             eq_refl Hne1). simpl.
  rewrite Hend, progress_Returned by done. simpl.
  apply backupFinally_ext; [|done]. simpl. by rewrite Hrun.
Qed.

(** A cycle with nothing pending ends in the idle state. *)
Lemma drain_last_cycle s j :
  inFlight s = Some j →
  backupRequested s = None →
  ∃ k, (k ≤ 3)%nat ∧ drain k s = mkStorage (runJob j (world s)) false None None.
Proof.
  intros Hj Hr. destruct (drain_cycle s j Hj) as (k & Hk & Hd).
  exists k. split; [done|]. rewrite Hd. unfold backupFinally. simpl. by rewrite Hr.
Qed.

(** A cycle with a pending request is followed by exactly one more cycle,
    which stores what the pending request's model holds by then. *)
Lemma drain_pending_cycle s j model cancellation :
  inFlight s = Some j →
  backupRequested s = Some (model, cancellation) →
  ∃ k, (k ≤ 6)%nat ∧
    drain k s =
    mkStorage (storeContentsInHotExitFile model (Some cancellation) None
                 (runJob j (world s)))
              false None None.
Proof.
  intros Hj Hr. destruct (drain_cycle s j Hj) as (k1 & Hk1 & Hd1).
  set (w1 := runJob j (world s)) in *.
  set (j1 := storeContentsInHotExitFileStart model (Some cancellation) None w1).
  assert (Hs1 : drain k1 s = mkStorage w1 true None (Some j1)).
  { rewrite Hd1. unfold backupFinally. simpl. rewrite Hr. done. }
  destruct (drain_last_cycle (mkStorage w1 true None (Some j1)) j1 eq_refl eq_refl)
    as (k2 & Hk2 & Hd2).
  exists (k2 + k1)%nat. split; [lia|].
  rewrite drain_add, Hs1, Hd2. done.
Qed.

Lemma truthy_false s : truthy s = false → s = "".
Proof. by destruct s. Qed.



(** Every burst is a run of the step function on a list of events. *)
Lemma burst_is_run s rs s' : burst s rs s' → ∃ es, run s es = s'.
Proof.
  induction 1 as [s|s r rs s' Hb Hburst [es IH]|s j0 rs s' Hj0 Hne Hburst [es IH]
                 |s m c rs s' Hburst [es IH]|s t rs s' Hburst [es IH]
                 |s t rs s' Hburst [es IH]].
  - by exists [].
  - by exists (EvBackup (reqModel r) (reqCancellation r) (reqBackupId r) :: es).
  - by exists (EvProgress :: es).
  - by exists (EvEdit m c :: es).
  - by exists (EvCancel t :: es).
  - by exists (EvClock t :: es).
Qed.

Lemma backup_idle model cancellation backupId s :
  backingUp s = false →
  backup model cancellation backupId s =
  mkStorage (world s) true (backupRequested s)
    (Some (storeContentsInHotExitFileStart model (Some cancellation) backupId (world s))).
Proof. intros Hb. unfold backup. by rewrite Hb. Qed.

Lemma backup_busy model cancellation backupId s :
  backingUp s = true →
  backup model cancellation backupId s =
  mkStorage (world s) true (Some (model, cancellation)) (inFlight s).
Proof. intros Hb. unfold backup. by rewrite Hb. Qed.

Lemma wellFormed_running w r j : wellFormed (mkStorage w true r (Some j)).
Proof. split; simpl; [|discriminate]. split; eauto. Qed.

Lemma wellFormed_idle w : wellFormed (mkStorage w false None None).
Proof. split; simpl; [|done]. split; [discriminate|]. by intros [? ?]. Qed.

Lemma wellFormed_running_inv s :
  wellFormed s → is_Some (inFlight s) → backingUp s = true.
Proof. intros [Hbi _] Hj. by apply Hbi. Qed.

Lemma wellFormed_idle_inv s :
  wellFormed s → inFlight s = None → backingUp s = false ∧ backupRequested s = None.
Proof.
  intros [Hbi Hreq] Hj.
  assert (Hb : backingUp s = false).
  { destruct (backingUp s) eqn:Hb; [|done].
    destruct (proj1 Hbi eq_refl) as [j Hj']. congruence. }
  split; [exact Hb | by apply Hreq].
Qed.

Lemma step_wellFormed s e : wellFormed s → wellFormed (step s e).
Proof.
  intros Hwf. destruct e as [m c b| |m c|t|t]; simpl; try exact Hwf.
  - destruct (backingUp s) eqn:Hb.
    + rewrite backup_busy by done.
      destruct (inFlight s) as [j|] eqn:Hj.
      * apply wellFormed_running.
      * destruct (wellFormed_idle_inv s Hwf Hj). congruence.
    + rewrite backup_idle by done. apply wellFormed_running.
  - unfold progress. destruct (inFlight s) as [j|] eqn:Hj; [|exact Hwf].
    pose proof (wellFormed_running_inv s Hwf (ltac:(rewrite Hj; eauto))) as Hb.
    destruct (Job_Returned_dec j) as [->|Hne].
    + unfold backupFinally. destruct (backupRequested s) as [[m c]|].
      * rewrite backup_idle by done. apply wellFormed_running.
      * apply wellFormed_idle.
    + assert (Hp : progress s = mkStorage (resume j (world s)).2 (backingUp s)
                                  (backupRequested s) (Some (resume j (world s)).1))
        by (by apply progress_resume).
      unfold progress in Hp. rewrite Hj in Hp.
      destruct j; try done; rewrite Hp, Hb; apply wellFormed_running.
Qed.

Lemma run_wellFormed s es : wellFormed s → wellFormed (run s es).
Proof.
  revert s. induction es as [|e es IH]; intros s Hwf; [done|].
  simpl. apply IH. by apply step_wellFormed.
Qed.

Lemma requests_cons e es :
  requests (e :: es) = ((if isBackup e then 1 else 0) + requests es)%nat.
Proof.
  unfold requests. rewrite filter_cons.
  destruct (isBackup e); [rewrite decide_True by done | rewrite decide_False by done];
    reflexivity.
Qed.

(** One event adds at most one to what has been written, is owed and is
    waiting, and only if it is a request. *)
Lemma step_budget s e :
  wellFormed s →
  (writes (fsOps (world (step s e))) + owedBy (step s e) + waiting (step s e)
   ≤ writes (fsOps (world s)) + owedBy s + waiting s + (if isBackup e then 1 else 0))%nat.
Proof.
  intros Hwf. destruct e as [m c b| |m c|t|t]; simpl;
    try (unfold owedBy, waiting; simpl; lia).
  - destruct (backingUp s) eqn:Hb.
    + rewrite backup_busy by done. unfold owedBy, waiting. simpl.
      destruct (backupRequested s); lia.
    + rewrite backup_idle by done.
      pose proof (storeContentsInHotExitFileStart_owed m (Some c) b (world s)).
      destruct (inFlight s) as [j|] eqn:Hj.
      * pose proof (wellFormed_running_inv s Hwf (ltac:(rewrite Hj; eauto))). congruence.
      * destruct (wellFormed_idle_inv s Hwf Hj) as [_ Hr].
        unfold owedBy, waiting. simpl. rewrite Hj, Hr. lia.
  - unfold progress. destruct (inFlight s) as [j|] eqn:Hj; [|lia].
    destruct (Job_Returned_dec j) as [->|Hne].
    + unfold backupFinally, owedBy at 2, waiting at 2. rewrite Hj.
      destruct (backupRequested s) as [[m c]|].
      * rewrite backup_idle by done. unfold owedBy, waiting. simpl.
        pose proof (storeContentsInHotExitFileStart_owed m (Some c) None (world s)). lia.
      * unfold owedBy, waiting. simpl. lia.
    + assert (Hp : progress s = mkStorage (resume j (world s)).2 (backingUp s)
                                  (backupRequested s) (Some (resume j (world s)).1))
        by (by apply progress_resume).
      unfold progress in Hp. rewrite Hj in Hp.
      pose proof (resume_owed j (world s)) as Ho.
      destruct j; try done; rewrite Hp; unfold owedBy, waiting; rewrite Hj;
        cbn [world inFlight backupRequested]; lia.
Qed.

Lemma run_budget s es :
  wellFormed s →
  (writes (fsOps (world (run s es))) + owedBy (run s es) + waiting (run s es)
   ≤ writes (fsOps (world s)) + owedBy s + waiting s + requests es)%nat.
Proof.
  revert s. induction es as [|e es IH]; intros s Hwf.
  - simpl. unfold requests. simpl. lia.
  - change (run s (e :: es)) with (run (step s e) es).
    pose proof (IH (step s e) (step_wellFormed s e Hwf)).
    pose proof (step_budget s e Hwf). rewrite requests_cons. lia.
Qed.



Lemma run_app s es1 es2 : run s (es1 ++ es2) = run (run s es1) es2.
Proof. unfold run. apply foldl_app. Qed.

Lemma drain_run n s : drain n s = run s (replicate n EvProgress).
Proof.
  revert s. induction n as [|n IH]; intros s; [done|].
  rewrite drain_succ_r, IH. done.
Qed.






End Coordinator.

Section CoordinatorClaims.
Context `{Services}.



(** C2, what the code does. A request that arrives while a backup runs is
    stored as its model and its token only; when the cycle completes, the
    [finally] callback clears the slot and calls [backup] with these two
    and no backup id, whatever backup id the request carried, so that the
    follow-up stores under the static key of the model's file. *)
Theorem C2_followup_without_backup_id (s : Storage) (model : Model)
    (cancellation : nat) (backupId : option string) :
  backingUp s = true →
  let s1 := backup model cancellation backupId s in
  backupRequested s1 = Some (model, cancellation)
  ∧ backupFinally s1 = backup model cancellation None (mkStorage (world s) false None None)
  ∧ backupRequested (backupFinally s1) = None
  ∧ inFlight (backupFinally s1) =
      Some (writeToStorageStart
              (getHashedFileName (getStaticStorageKey (modelFile model)))
              (if truthy (getContent model (world s))
               then Some (stringifyHotExit (getContent model (world s)) (clock (world s)))
               else None)
              (Some cancellation) (world s)).
Proof.
  intros Hbu. cbn zeta.
  assert (Hs1 : backup model cancellation backupId s =
                mkStorage (world s) (backingUp s) (Some (model, cancellation)) (inFlight s)).
  { unfold backup. by rewrite Hbu. }
  rewrite Hs1. unfold backupFinally, backup. simpl. done.
Qed.

(** C10 (amended). For a model whose serialized content is the empty
    string, a backup call that starts a cycle (none is in flight) under a
    token that is not cancelled deletes the record of the computed key and
    writes no envelope: once the cycle has run (two turns suffice) the
    state is the one [clearHotExit] leaves for that key, the only
    file-system call was the delete, the file is absent whether or not it
    existed, and nothing was logged. *)
Theorem C10_empty_content_deletes (s : Storage) (model : Model) (cancellation : nat)
    (backupId : option string) (n : nat) :
  backingUp s = false →
  backupRequested s = None →
  getContent model (world s) = "" →
  isCancellationRequested (Some cancellation) (world s) = false →
  (2 ≤ n)%nat →
  let p := getHashedFileName (orElse backupId (getStaticStorageKey (modelFile model))) in
  let sf := drain n (backup model cancellation backupId s) in
  sf = mkStorage (clearHotExit (modelFile model) backupId (world s)) false None None
  ∧ fsOps (world sf) = OpDeleteFile p :: fsOps (world s)
  ∧ files (world sf) = delete p (files (world s))
  ∧ files (world sf) !! p = None
  ∧ logged (world sf) = logged (world s).
Proof.
  intros Hidle Hreq Hempty Hcan Hn. cbn zeta.
  set (p := getHashedFileName (orElse backupId (getStaticStorageKey (modelFile model)))).
  assert (Hstart : backup model cancellation backupId s =
                   mkStorage (world s) true None (Some (AwaitDeleteFile p))).
  { unfold backup. rewrite Hidle, Hreq.
    rewrite storeContentsInHotExitFileStart_empty by done.
    unfold writeToStorageStart. by rewrite Hcan. }
  assert (Hclear : clearHotExit (modelFile model) backupId (world s)
                   = recordOp (OpDeleteFile p) (setFiles (delete p (files (world s))) (world s))).
  { unfold clearHotExit. by rewrite writeToStorage_delete. }
  assert (Htwo : drain 2 (backup model cancellation backupId s) =
                 mkStorage (clearHotExit (modelFile model) backupId (world s))
                           false None None).
  { rewrite Hstart, Hclear. rewrite !drain_succ_r.
    rewrite (progress_resume (mkStorage (world s) true None (Some (AwaitDeleteFile p)))
               (AwaitDeleteFile p) eq_refl) by done.
    cbn [world backingUp backupRequested].
    rewrite resume_AwaitDeleteFile. simpl. rewrite progress_Returned by done.
    unfold backupFinally. simpl. done. }
  assert (Hsf : drain n (backup model cancellation backupId s) =
                mkStorage (clearHotExit (modelFile model) backupId (world s))
                          false None None).
  { rewrite <- Htwo. apply drain_settled; [by rewrite Htwo | lia]. }
  rewrite Hsf, Hclear. simpl.
  repeat split; try done. apply lookup_delete_eq.
Qed.

End CoordinatorClaims.

(** *** The coordinator claims on the small instance *)

Section CoordinatorExamples.
Import Demo.




(** A backup under [backupId1] is in flight when the model is edited and
    backed up again under the same id: the follow-up writes the new
    content to the file of the static key, and the file of [backupId1]
    keeps the old content. *)
Lemma C2_followup_without_backup_id_witness :
  let s := onWorld (edit model1 "v1")
             (@backup services model1 1 (Some backupId1) (idle (holding "v0" emptyWorld))) in
  let sf := @drain services 6 (@backup services model1 2 (Some backupId1) s) in
  backupRequested (@backup services model1 2 (Some backupId1) s) = Some (model1, 2%nat)
  ∧ files (world sf) !! hashed backupId1 = Some (mkFile (stringify "v0" 1000) 1000)
  ∧ files (world sf) !! hashed staticKey = Some (mkFile (stringify "v1" 1000) 1000)
  ∧ fsOps (world sf)
    = [OpWriteFile (hashed staticKey) (stringify "v1" 1000); OpCreateDirectory "/gs";
       OpWriteFile (hashed backupId1) (stringify "v0" 1000); OpCreateDirectory "/gs"].
Proof.
  cbn zeta.
  destruct (@C2_followup_without_backup_id services
              (onWorld (edit model1 "v1")
                 (@backup services model1 1 (Some backupId1) (idle (holding "v0" emptyWorld))))
              model1 2 (Some backupId1)) as (Hp & _).
  - reflexivity.
  - split; [exact Hp|]. vm_compute. repeat split; reflexivity.
Defined.

(** An empty model is backed up over an existing record: the record is
    deleted. *)
Lemma C10_empty_content_deletes_witness :
  let s := idle (hotExit staticKey "dirty" 10 (holding "" emptyWorld)) in
  let sf := @drain services 2 (@backup services model1 1 None s) in
  files (world s) !! hashed staticKey = Some (mkFile (stringify "dirty" 10) 10)
  ∧ fsOps (world sf) = [OpDeleteFile (hashed staticKey)]
  ∧ files (world sf) !! hashed staticKey = None
  ∧ logged (world sf) = [].
Proof.
  cbn zeta.
  destruct (@C10_empty_content_deletes services
              (idle (hotExit staticKey "dirty" 10 (holding "" emptyWorld)))
              model1 1 None 2)
    as (_ & Hops & _ & Hgone & Hlog).
  - reflexivity.
  - reflexivity.
  - reflexivity.
  - reflexivity.
  - lia.
  - split; [vm_compute; reflexivity|].
    split; [exact Hops|]. split; [exact Hgone|]. exact Hlog.
Defined.

(** C10 as stated fails for a request whose token is cancelled: the call
    for the empty model does no file-system call at all, and the record
    stays. It also fails for a call that arrives while a backup under the
    same backup id is in flight: the call is queued, the follow-up deletes
    under the static key, and the record under the backup id stays. *)
Lemma C10_counterexample :
  (let s := idle (cancel 1 (hotExit staticKey "dirty" 10 (holding "" emptyWorld))) in
   let sf := @drain services 6 (@backup services model1 1 None s) in
   getContent model1 (world s) = ""
   ∧ backingUp s = false
   ∧ fsOps (world sf) = []
   ∧ files (world sf) !! hashed staticKey = Some (mkFile (stringify "dirty" 10) 10)
   ∧ inFlight sf = None)
  ∧ (let s := onWorld (edit model1 "")
                (@backup services model1 1 (Some backupId1)
                   (idle (holding "v0" emptyWorld))) in
     let sf := @drain services 6 (@backup services model1 2 (Some backupId1) s) in
     getContent model1 (world s) = ""
     ∧ backingUp s = true
     ∧ fsOps (world sf)
       = [OpDeleteFile (hashed staticKey);
          OpWriteFile (hashed backupId1) (stringify "v0" 1000); OpCreateDirectory "/gs"]
     ∧ files (world sf) !! hashed backupId1 = Some (mkFile (stringify "v0" 1000) 1000)
     ∧ inFlight sf = None).
Proof. vm_compute. repeat split; reflexivity. Qed.

End CoordinatorExamples.

(** ** Model loader *)

Section Loader.
Context `{Services}.

Lemma lacksCells_true json :
  lacksCells json = true ↔ ∃ j, json = Some j ∧ nbCellsValue j = CellsMissing.
Proof.
  unfold lacksCells. split.
  - destruct json as [j|]; [|done]. destruct (nbCellsValue j) eqn:Hc; try done. eauto.
  - intros (j & -> & ->). done.
Qed.

(** What [loadContents] does, by the value of [cells]. *)
Lemma loadContents_cases file text dirty tc fvn w :
  let json := if truthyOpt text then parseNotebook (default "" text) else Ok None in
  match json with
  | Thrown e => loadContents file text dirty tc fvn w = (Thrown e, w)
  | Ok None =>
    ∃ m, loadContents file text dirty tc fvn w = (Ok m, setUuidCount (S (uuidCount w)) w)
         ∧ cells m = [createEmptyCell (uuid (uuidCount w))] ∧ notebookJson m = None
  | Ok (Some j) =>
    match nbCellsValue j with
    | CellsMissing =>
      loadContents file text dirty tc fvn w = (Thrown (InvalidNotebookFileError (fsPath file)), w)
    | CellsOther => loadContents file text dirty tc fvn w = (Thrown notAFunction, w)
    | CellsArray [] =>
      ∃ m, loadContents file text dirty tc fvn w = (Ok m, setUuidCount (S (uuidCount w)) w)
           ∧ cells m = [createEmptyCell (uuid (uuidCount w))] ∧ notebookJson m = Some j
    | CellsArray cs =>
      ∃ m, loadContents file text dirty tc fvn w = (Ok m, w)
           ∧ cells m = imap remapCell cs ∧ notebookJson m = Some j
    end
  end.
Proof.
  cbn zeta. unfold loadContents.
  destruct (if truthyOpt text then _ else _) as [[j|]|e]; [| |done].
  - unfold lacksCells, cellsOf. destruct (nbCellsValue j) as [|[|c cs]|]; try done.
    + simpl. eauto.
    + simpl. eauto.
  - simpl. eauto.
Qed.

(** With collaborators that answer, [loadContents] throws exactly on a
    content failure. *)
Lemma loadContents_Thrown file text dirty tc fvn w e :
  (loadContents file text dirty tc fvn w).1 = Thrown e ↔ contentFailure file text e.
Proof.
  pose proof (loadContents_cases file text dirty tc fvn w) as Hc. cbn zeta in Hc.
  unfold contentFailure.
  destruct (truthyOpt text) eqn:Ht.
  - destruct (parseNotebook (default "" text)) as [[j|]|e'] eqn:Hp.
    + destruct (nbCellsValue j) as [|cs|] eqn:Hj.
      * rewrite Hc. simpl. split.
        -- intros [= <-]. split; [done|]. right. left. eauto.
        -- intros [_ [?|[[-> _]|[_ (j' & [= <-] & ?)]]]]; [done|done|congruence].
      * assert (Hok : ∃ m w1, loadContents file text dirty tc fvn w = (Ok m, w1)).
        { destruct cs; destruct Hc as (m & -> & _); eauto. }
        destruct Hok as (m & w1 & ->). simpl. split; [done|].
        intros [_ [?|[[_ (j' & [= <-] & ?)]|[_ (j' & [= <-] & ?)]]]]; congruence.
      * rewrite Hc. simpl. split.
        -- intros [= <-]. split; [done|]. right. right. eauto.
        -- intros [_ [?|[[_ (j' & [= <-] & ?)]|[-> _]]]]; [done|congruence|done].
    + destruct Hc as (m & -> & _). simpl. split; [done|].
      intros [_ [?|[[_ (j' & ? & _)]|[_ (j' & ? & _)]]]]; done.
    + rewrite Hc. simpl. split.
      * intros [= <-]. split; [done|]. by left.
      * intros [_ [Heq|[[_ (j & ? & _)]|[_ (j & ? & _)]]]]; [|done|done].
        by injection Heq as ->.
  - destruct Hc as (m & -> & _). simpl. split; [done|]. by intros [? _].
Qed.

(** What [loadContents] assembles when it does not throw. *)
Lemma loadContents_Ok uri text dirty tc fvn w m :
  (loadContents uri text dirty tc fvn w).1 = Ok m →
  cells m ≠ []
  ∧ file m = uri
  ∧ initiallyDirty m = Some (default false dirty)
  ∧ forVSCodeNotebook m = fvn
  ∧ trusted m =
      (if bool_decide (text = None) || isUntitledFile uri then true
       else isNotebookTrusted (uriString uri)
              (default "" (if default false dirty && bool_decide (tc ≠ None)
                           then tc else text))).
Proof.
  unfold loadContents.
  destruct (if truthyOpt text then _ else _) as [json|e]; [|done].
  destruct (lacksCells json); [done|].
  destruct (cellsOf json) as [|cs|]; [done| |done].
  destruct (length _ =? 0)%nat eqn:Hlen; simpl; intros [= <-]; simpl.
  - repeat split; done.
  - repeat split; try done.
    intros Hnil. rewrite Hnil in Hlen. done.
Qed.

(** A text without cells, or no text at all, yields the one synthesized
    cell, whose identifier is the next [uuid()]. *)
Lemma loadContents_no_cells file text dirty tc fvn w :
  match (if truthyOpt text then parseNotebook (default "" text) else Ok None) with
  | Ok json => cellsOf json = CellsArray []
  | Thrown _ => False
  end →
  ∃ m, loadContents file text dirty tc fvn w = (Ok m, setUuidCount (S (uuidCount w)) w)
       ∧ cells m = [createEmptyCell (uuid (uuidCount w))].
Proof.
  unfold loadContents.
  destruct (if truthyOpt text then _ else _) as [json|e]; [|done].
  intros Hnil. rewrite Hnil.
  assert (Hl : lacksCells json = false).
  { destruct json as [j|]; [|done]. simpl in *. by rewrite Hnil. }
  rewrite Hl. simpl. eauto.
Qed.

(** [loadFromFile] after a read that succeeded is [loadContents] on the
    content it selects. *)
Lemma loadFromFile_selects file pc options fvn w contents :
  readContents file pc w = Ok contents →
  ∃ dirty tc w1,
    loadFromFile file pc options fvn w =
    loadContents file (selectedContents file contents options w) dirty tc fvn w1.
Proof.
  intros Hr. unfold loadFromFile, selectedContents. rewrite Hr.
  destruct (skipDirtyContentsOf options).
  - simpl. eauto.
  - destruct (getStoredContents file (backupIdOf file options) w) as [d w1].
    simpl. destruct (truthyOpt d); eauto.
Qed.

End Loader.

Section LoaderClaims.
Context `{Services}.

(** C4, what the code does. A load whose third argument is a non-empty
    string takes the skip path: the record stored under that backup id is
    deleted, the storage tier resolver is not asked, and the model is
    loaded, not dirty, from the supplied or on-disk content. *)
Theorem C4_backup_id_takes_skip_path (file : Uri) (possibleContents : option string)
    (backupId : string) (forVSCodeNotebook : option bool) (w : World)
    (contents : option string) :
  truthy backupId = true →
  readContents file possibleContents w = Ok contents →
  let w1 := clearHotExit file (Some backupId) w in
  skipDirtyContentsOf (OptString backupId) = true
  ∧ loadFromFile file possibleContents (OptString backupId) forVSCodeNotebook w
    = loadContents file contents None None forVSCodeNotebook w1
  ∧ files w1 = delete (getHashedFileName backupId) (files w)
  ∧ files w1 !! getHashedFileName backupId = None
  ∧ (∀ m w2,
       loadFromFile file possibleContents (OptString backupId) forVSCodeNotebook w
       = (Ok m, w2) →
       initiallyDirty m = Some false).
Proof.
  intros Ht Hr. cbn zeta.
  assert (Hclear : clearHotExit file (Some backupId) w
                   = recordOp (OpDeleteFile (getHashedFileName backupId))
                       (setFiles (delete (getHashedFileName backupId) (files w)) w)).
  { unfold clearHotExit. simpl. rewrite Ht. by rewrite writeToStorage_delete. }
  assert (Hload : loadFromFile file possibleContents (OptString backupId)
                    forVSCodeNotebook w
                  = loadContents file contents None None forVSCodeNotebook
                      (clearHotExit file (Some backupId) w)).
  { unfold loadFromFile. rewrite Hr. simpl. by rewrite Ht. }
  split; [exact Ht|]. split; [exact Hload|].
  rewrite Hclear. simpl. split; [done|]. split; [apply lookup_delete_eq|].
  intros m w2 Hm. rewrite Hload in Hm.
  destruct (loadContents_Ok file contents None None forVSCodeNotebook
              (clearHotExit file (Some backupId) w) m) as (_ & _ & Hd & _);
    [by rewrite Hm | exact Hd].
Qed.

(** C5 (amended). When reading the file fails, [load] logs the failure and
    returns a fresh trusted model for the identity. When the read
    succeeds, nothing that [loadContents] raises is caught: the outcome of
    [load] is the outcome of [loadContents] on the content it selected
    (the dirty content if the resolver found some, else the supplied or
    on-disk content). In particular [load] raises outward when that
    content is a non-empty text which [JSON.parse] rejects (the parser's
    error), which parses to a truthy value without [cells]
    ([InvalidNotebookFileError]), or which parses to a value whose [cells]
    is truthy and not an array (the [TypeError] of [cells.map]). *)
Theorem C5_load_failures (uri : Uri) (possibleContents : option string)
    (options : LoadOption) (forVSCodeNotebook : option bool) (w : World) :
  (∀ ex, readContents uri possibleContents w = Thrown ex →
     ∃ m, load uri possibleContents options forVSCodeNotebook w
          = (Ok m, traceError ("Failed to load notebook file " ++ uriString uri)
                              (Some ex) w)
          ∧ trusted m = true ∧ file m = uri)
  ∧ (∀ contents, readContents uri possibleContents w = Ok contents →
     let text := selectedContents uri contents options w in
     (∃ dirty tc w1,
        load uri possibleContents options forVSCodeNotebook w
        = loadContents uri text dirty tc forVSCodeNotebook w1)
     ∧ (∀ e, contentFailure uri text e →
          (load uri possibleContents options forVSCodeNotebook w).1 = Thrown e)).
Proof.
  split.
  - intros ex Hr. unfold load, loadFromFile. rewrite Hr.
    eexists. split; [reflexivity|]. done.
  - intros contents Hr. cbn zeta. unfold load.
    destruct (loadFromFile_selects uri possibleContents options forVSCodeNotebook
                w contents Hr) as (dirty & tc & w1 & Hl).
    split; [by exists dirty, tc, w1|].
    intros e He. rewrite Hl. by apply loadContents_Thrown.
Qed.

(** C6, what the code does. The model [load] returns after a failed read is
    assembled with an empty cell list. *)
Theorem C6_fallback_has_no_cell (file : Uri) (possibleContents : option string)
    (options : LoadOption) (forVSCodeNotebook : option bool) (w : World) (ex : Error) :
  readContents file possibleContents w = Thrown ex →
  ∃ m w1, load file possibleContents options forVSCodeNotebook w = (Ok m, w1)
          ∧ cells m = [].
Proof.
  intros Hr. unfold load, loadFromFile. rewrite Hr. eauto.
Qed.

(** C8. When a load of a document that is not untitled finds dirty hot-exit
    content, the model it returns is marked dirty and its trust flag is the
    verifier's answer for the on-disk text; the load raises only if the
    dirty content itself is a content failure, and returns a model
    otherwise. *)
Theorem C8_dirty_load_trusts_disk (file : Uri) (possibleContents : option string)
    (options : LoadOption) (forVSCodeNotebook : option bool) (w : World)
    (disk dirty : string) :
  isUntitledFile file = false →
  readFile (fsPath file) w = Ok disk →
  skipDirtyContentsOf options = false →
  (getStoredContents file (backupIdOf file options) w).1 = Some dirty →
  match (load file possibleContents options forVSCodeNotebook w).1 with
  | Ok m =>
    initiallyDirty m = Some true
    ∧ trusted m = isNotebookTrusted (uriString file) disk
    ∧ cells m ≠ []
  | Thrown e => contentFailure file (Some dirty) e
  end.
Proof.
  intros Hu Hr Hskip Hd.
  pose proof (getStoredContents_truthy file _ w dirty Hd) as Ht.
  unfold load, loadFromFile, readContents. rewrite Hu, Hr, Hskip.
  destruct (getStoredContents file (backupIdOf file options) w) as [d w1].
  simpl in Hd. subst d. simpl. rewrite Ht.
  destruct (loadContents file (Some dirty) (Some true) (Some disk) forVSCodeNotebook w1)
    as [[m|e] w2] eqn:Hl; simpl.
  - destruct (loadContents_Ok file (Some dirty) (Some true) (Some disk)
                forVSCodeNotebook w1 m) as (Hc & _ & Hdirty & _ & Htrust);
      [by rewrite Hl|].
    split; [done|]. split; [|done].
    rewrite Htrust, Hu. simpl. done.
  - apply (loadContents_Thrown file (Some dirty) (Some true) (Some disk)
             forVSCodeNotebook w1). by rewrite Hl.
Qed.

End LoaderClaims.

(** *** The loader claims on the small instance *)

Section LoaderExamples.
Import Demo.

(** A record is stored under [backupId1] and the resolver would find it;
    the load under that id deletes it and returns a model that is not
    dirty. *)
Lemma C4_backup_id_takes_skip_path_witness :
  let w := hotExit backupId1 "dirty" 100 (onDisk oneCell 20 emptyWorld) in
  let r := @loadFromFile services nb None (OptString backupId1) None w in
  (@getStoredContents services nb (Some backupId1) w).1 = Some "dirty"
  ∧ files r.2 !! hashed backupId1 = None
  ∧ ∃ m, r.1 = Ok m ∧ initiallyDirty m = Some false
         ∧ cells m = [@remapCell services 0 (CodeCell "x = 1")].
Proof.
  cbn zeta.
  destruct (@C4_backup_id_takes_skip_path services nb None backupId1 None
              (hotExit backupId1 "dirty" 100 (onDisk oneCell 20 emptyWorld))
              (Some oneCell))
    as (_ & Hload & _ & _ & Hclean).
  - reflexivity.
  - vm_compute. reflexivity.
  - split; [vm_compute; reflexivity|].
    split; [vm_compute; reflexivity|].
    eexists. split; [rewrite Hload; vm_compute; reflexivity|].
    split; [|vm_compute; reflexivity].
    eapply Hclean. rewrite Hload. vm_compute. reflexivity.
Defined.

(** A missing file gives the trusted fallback, with the failure logged; a
    file without [cells], a file whose [cells] is a number and a file that
    is no JSON make the load raise. *)
Lemma C5_load_failures_witness :
  (∃ m, @load services missing None OptUndefined None emptyWorld
        = (Ok m, traceError "Failed to load notebook file file:///w/none.ipynb"
                   (Some (FileNotFound "/w/none.ipynb")) emptyWorld)
        ∧ trusted m = true ∧ file m = missing)
  ∧ (@load services nb None OptUndefined None (onDisk noCells 20 emptyWorld)).1
    = Thrown (InvalidNotebookFileError "/w/a.ipynb")
  ∧ (@load services nb None OptUndefined None (onDisk cellsNumber 20 emptyWorld)).1
    = Thrown (TypeError "cells.map is not a function")
  ∧ (@load services nb None OptUndefined None (onDisk "{" 20 emptyWorld)).1
    = Thrown (SyntaxError "{").
Proof.
  split; [|split; [|split]].
  - destruct (@C5_load_failures services missing None OptUndefined None emptyWorld)
      as [Hfail _].
    apply (Hfail (FileNotFound "/w/none.ipynb")).
    vm_compute. reflexivity.
  - destruct (@C5_load_failures services nb None OptUndefined None
                (onDisk noCells 20 emptyWorld)) as [_ Hraise].
    destruct (Hraise (Some noCells)) as [_ Hthrown]; [vm_compute; reflexivity|].
    apply Hthrown. split; [vm_compute; reflexivity|].
    right. left. split; [reflexivity|].
    exists (mkNotebook CellsMissing None). split; vm_compute; reflexivity.
  - destruct (@C5_load_failures services nb None OptUndefined None
                (onDisk cellsNumber 20 emptyWorld)) as [_ Hraise].
    destruct (Hraise (Some cellsNumber)) as [_ Hthrown]; [vm_compute; reflexivity|].
    apply Hthrown. split; [vm_compute; reflexivity|].
    right. right. split; [reflexivity|].
    exists (mkNotebook CellsOther None). split; vm_compute; reflexivity.
  - destruct (@C5_load_failures services nb None OptUndefined None
                (onDisk "{" 20 emptyWorld)) as [_ Hraise].
    destruct (Hraise (Some "{")) as [_ Hthrown]; [vm_compute; reflexivity|].
    apply Hthrown. split; [vm_compute; reflexivity|].
    left. vm_compute. reflexivity.
Defined.

(** C5 as stated fails on content that is not a notebook: for on-disk text
    that is valid JSON without a cell list, for text that is no JSON at
    all, and for JSON whose [cells] is a number, [load] raises and nothing
    is logged. *)
Lemma C5_counterexample :
  @load services nb None OptUndefined None (onDisk noCells 20 emptyWorld)
  = (Thrown (InvalidNotebookFileError "/w/a.ipynb"), onDisk noCells 20 emptyWorld)
  ∧ @load services nb None OptUndefined None (onDisk "{" 20 emptyWorld)
    = (Thrown (SyntaxError "{"), onDisk "{" 20 emptyWorld)
  ∧ @load services nb None OptUndefined None (onDisk cellsNumber 20 emptyWorld)
    = (Thrown (TypeError "cells.map is not a function"), onDisk cellsNumber 20 emptyWorld).
Proof. vm_compute. repeat split; reflexivity. Qed.

(** The file of the identity does not exist: the model has no cell. *)
Lemma C6_fallback_has_no_cell_witness :
  ∃ m w1, @load services missing None OptUndefined None emptyWorld = (Ok m, w1)
          ∧ cells m = [].
Proof.
  apply (@C6_fallback_has_no_cell services missing None OptUndefined None emptyWorld
           (FileNotFound "/w/none.ipynb")).
  vm_compute. reflexivity.
Defined.

(** A record that is not stale is found for a trusted file on disk: the
    model is dirty, holds the cell of the dirty text, and is trusted
    because the on-disk text is (the dirty text is not). *)
Lemma C8_dirty_load_trusts_disk_witness :
  let w := hotExit staticKey "dirty" 100 (onDisk oneCell 20 emptyWorld) in
  @isNotebookTrusted services (uriString nb) "dirty" = false
  ∧ ∃ m, (@load services nb None OptUndefined None w).1 = Ok m
         ∧ initiallyDirty m = Some true
         ∧ trusted m = true
         ∧ cells m = [@remapCell services 0 (MarkdownCell "# edited")].
Proof.
  cbn zeta. split; [reflexivity|].
  pose proof (@C8_dirty_load_trusts_disk services nb None OptUndefined None
                (hotExit staticKey "dirty" 100 (onDisk oneCell 20 emptyWorld))
                oneCell "dirty") as Hc.
  destruct (@load services nb None OptUndefined None
              (hotExit staticKey "dirty" 100 (onDisk oneCell 20 emptyWorld)))
    as [[m|e] w1] eqn:Hl.
  - exists m. split; [reflexivity|].
    destruct Hc as (Hd & Ht & _).
    + reflexivity.
    + vm_compute. reflexivity.
    + reflexivity.
    + vm_compute. reflexivity.
    + split; [exact Hd|]. split; [rewrite Ht; vm_compute; reflexivity|].
      vm_compute in Hl. injection Hl as <- _. reflexivity.
  - vm_compute in Hl. discriminate.
Defined.

End LoaderExamples.

(** * Further properties of the class *)

(** ** What the resolver does with what the writer stored *)

Section StoreAndResolve.
Context `{Services}.

Lemma getStaticStorageKey_prefix file :
  String.prefix KeyPrefix (getStaticStorageKey file) = true.
Proof.
  unfold getStaticStorageKey, KeyPrefix. simpl.
  repeat (destruct (Ascii.ascii_dec _ _); [|done]).
  by destruct (uriString file).
Qed.

Lemma statMtime_insert p q text t w :
  statMtime p (setFiles (<[q := mkFile text t]> (files w)) w) =
  if decide (q = p) then Ok t else statMtime p w.
Proof.
  unfold statMtime. simpl. case_decide as Hq.
  - subst. by rewrite lookup_insert_eq.
  - by rewrite lookup_insert_ne.
Qed.

(** X1. Store, then resolve. After a store call that is not cancelled, for
    non-empty content, the query under the same backup id returns exactly
    that content and changes nothing, provided [JSON.parse] reads back the
    envelope that was written and the document's file, when its scheme is
    [file], exists and was not modified after the time of the store. *)
Theorem X1_store_then_resolve (model : Model) (tok : option nat)
    (backupId : option string) (w : World) :
  isCancellationRequested tok w = false →
  truthy (getContent model w) = true →
  parseHotExit (stringifyHotExit (getContent model w) (clock w))
  = Ok (Some (mkHotExit (Some (getContent model w)) (Some (clock w)))) →
  (scheme (modelFile model) = "file" →
   ∃ m, statMtime (fsPath (modelFile model)) w = Ok m ∧ (m ≤ clock w)%Z) →
  let w1 := storeContentsInHotExitFile model tok backupId w in
  getStoredContents (modelFile model) backupId w1 = (Some (getContent model w), w1).
Proof.
  intros Hcan Htruthy Hparse Hstat. cbn zeta.
  rewrite storeContentsInHotExitFile_write by done. cbn zeta.
  set (key := orElse backupId (getStaticStorageKey (modelFile model))).
  set (p := getHashedFileName key).
  set (text := stringifyHotExit (getContent model w) (clock w)).
  set (w1 := recordOp (OpWriteFile p text) _).
  assert (Hfile : getStoredContentsFromFile (modelFile model) key w1
                  = (Some (getContent model w), w1)).
  { unfold getStoredContentsFromFile, readHotExitFile, readFile. fold p.
    replace (files w1 !! p) with (Some (mkFile text (clock w)))
      by (symmetry; apply lookup_insert_eq).
    cbn [fileText]. unfold text at 1. rewrite Hparse. cbn [mbind option_bind heLastModified].
    assert (Hfresh : modifiedSince (Some (clock w)) (modelFile model) w1 = Ok false).
    { unfold modifiedSince. cbn [truthyNum].
      destruct (clock w =? 0)%Z eqn:Hz; [done|]. cbn [negb andb].
      destruct (String.eqb (scheme (modelFile model)) "file") eqn:Hs; [|done].
      apply String.eqb_eq in Hs. destruct (Hstat Hs) as (m & Hm & Hle).
      assert (Hst : statMtime (fsPath (modelFile model)) w1
                    = if decide (p = fsPath (modelFile model)) then Ok (clock w)
                      else statMtime (fsPath (modelFile model)) w).
      { unfold statMtime. subst w1. simpl. case_decide as Hq.
        - rewrite <- Hq. by rewrite lookup_insert_eq.
        - by rewrite lookup_insert_ne. }
      rewrite Hst. case_decide.
      - f_equal. change (default 0%Z (Some (clock w))) with (clock w).
        rewrite Z.gtb_ltb. apply Z.ltb_ge. lia.
      - rewrite Hm. f_equal. change (default 0%Z (Some (clock w))) with (clock w).
        rewrite Z.gtb_ltb. apply Z.ltb_ge. lia. }
    rewrite Hfresh. cbn [heContents contentsIfAny]. by rewrite Htruthy. }
  unfold getStoredContents. fold key. rewrite Hfile. cbn [truthyOpt]. by rewrite Htruthy.
Qed.

(** X2. Delete, then resolve. After [deleteBackup] the file store holds
    nothing for that backup id, silently, whether or not a record existed;
    and when the legacy stores hold nothing for it either, the query
    returns nothing and changes nothing. *)
Theorem X2_delete_then_resolve (model : Model) (backupId : string) (w : World) :
  truthy backupId = true →
  let w1 := deleteBackup model backupId w in
  files w1 = delete (getHashedFileName backupId) (files w)
  ∧ getStoredContentsFromFile (modelFile model) backupId w1 = (None, w1)
  ∧ (globalStorage w !! backupId = None → localStorage w !! backupId = None →
     getStoredContents (modelFile model) (Some backupId) w1 = (None, w1)).
Proof.
  intros Ht. cbn zeta. unfold deleteBackup, clearHotExit. simpl orElse. rewrite Ht.
  rewrite writeToStorage_delete by done.
  set (p := getHashedFileName backupId).
  set (w1 := recordOp (OpDeleteFile p) _).
  assert (Hfile : getStoredContentsFromFile (modelFile model) backupId w1 = (None, w1)).
  { unfold getStoredContentsFromFile, readHotExitFile, readFile. fold p.
    replace (files w1 !! p) with (@None FileStat) by (symmetry; apply lookup_delete_eq).
    done. }
  split; [done|]. split; [exact Hfile|].
  intros Hg Hl. unfold getStoredContents. simpl orElse. rewrite Ht, Hfile. cbn [truthyOpt].
  unfold getStoredContentsFromGlobalStorage.
  replace (globalStorage w1 !! backupId) with (@None MementoValue) by done.
  simpl. rewrite getStoredContentsFromLocalStorage_miss; done.
Qed.

(** X3. Misses are silent. When the hot-exit file of the key does not
    exist, or when it holds a readable record with a non-zero time but the
    document's own file (scheme [file]) does not exist, the file store
    returns nothing and logs nothing. *)
Theorem X3_missing_files_are_silent (file : Uri) (key : string) (w : World) :
  (files w !! getHashedFileName key = None →
   getStoredContentsFromFile file key w = (None, w))
  ∧ (∀ text c T,
       readFile (getHashedFileName key) w = Ok text →
       parseHotExit text = Ok (Some (mkHotExit c (Some T))) →
       T ≠ 0%Z → scheme file = "file" → files w !! fsPath file = None →
       getStoredContentsFromFile file key w = (None, w)).
Proof.
  split.
  - intros Hm. unfold getStoredContentsFromFile, readHotExitFile, readFile.
    by rewrite Hm.
  - intros text c T Hr Hp HT Hs Hm.
    unfold getStoredContentsFromFile, readHotExitFile.
    rewrite Hr, Hp. simpl. unfold modifiedSince, statMtime. simpl.
    replace (T =? 0)%Z with false by (symmetry; by apply Z.eqb_neq).
    rewrite Hs, Hm. done.
Qed.

(** X4. A hot-exit file that [JSON.parse] rejects does not stop recovery:
    the failure is logged once, and the query answers what the legacy
    stores answer. *)
Theorem X4_corrupt_record_falls_through (file : Uri) (backupId : option string)
    (w : World) (text : string) (exc : Error) :
  let key := orElse backupId (getStaticStorageKey file) in
  readFile (getHashedFileName key) w = Ok text →
  parseHotExit text = Thrown exc →
  isFileNotFoundError exc = false →
  let w1 := traceError ("Exception reading from temporary storage for " ++ key)
                       (Some exc) w in
  getStoredContentsFromFile file key w = (None, w1)
  ∧ getStoredContents file backupId w =
    match getStoredContentsFromGlobalStorage file key w1 with
    | (Some c, w2) => (Some c, w2)
    | (None, w2) => getStoredContentsFromLocalStorage file key w2
    end.
Proof.
  intros key Hr Hp Hnf. cbn zeta.
  assert (Hfile : getStoredContentsFromFile file key w
                  = (None, traceError ("Exception reading from temporary storage for " ++ key)
                                      (Some exc) w)).
  { unfold getStoredContentsFromFile, readHotExitFile. by rewrite Hr, Hp, Hnf. }
  split; [exact Hfile|].
  pose proof (getStoredContents_unfold file backupId w) as Hq. cbn zeta in Hq.
  fold key in Hq. rewrite Hq, Hfile. simpl.
  destruct (getStoredContentsFromGlobalStorage file key (traceError _ _ w))
    as [[c|] w2]; reflexivity.
Qed.

(** X5. A truthy value found under the key in the legacy global store,
    whether or not it yields content, costs every entry of that store
    whose key starts with the storage-key prefix, those of other documents
    included, and sets the flag; a value without contents (the oldest
    format, a bare string) yields nothing. *)
Theorem X5_global_find_sweeps_all (file : Uri) (key : string) (w : World)
    (v : MementoValue) :
  globalStorage w !! key = Some v →
  truthyValue v = true →
  let r := getStoredContentsFromGlobalStorage file key w in
  globalStorage r.2 = globalStorage (transferStorage w)
  ∧ sweptEntries r.2 = ∅
  ∧ globalStorage r.2 !! NotebookTransferKey = Some (MBool true)
  ∧ (valueContents v = None → r.1 = None).
Proof.
  intros Hk Hv. cbn zeta.
  pose proof (getStoredContentsFromGlobalStorage_stores file key w) as (_ & _ & Hg).
  rewrite Hk in Hg. unfold truthyData in Hg. rewrite Hv in Hg.
  split; [exact Hg|]. split; [|split].
  - unfold sweptEntries. rewrite Hg.
    apply (sweptEntries_transferStorage w).
  - rewrite Hg, transferStorage_lookup. done.
  - intros Hc. unfold getStoredContentsFromGlobalStorage.
    rewrite Hk. simpl. rewrite Hv. simpl. rewrite Hc.
    by destruct (modifiedSince _ file _) as [[|]|].
Qed.

(** X6. Content of the legacy global store is handed out once. When the
    global store answers for the static key of a document, the same
    question on the state it leaves has no answer; and the whole query,
    asked again after such an answer, returns what the workspace store
    holds, never the global content again. *)
Theorem X6_global_content_once (file : Uri) (w : World) (c : string) :
  let key := getStaticStorageKey file in
  (getStoredContentsFromGlobalStorage file key w).1 = Some c →
  (getStoredContentsFromGlobalStorage file key
     (getStoredContentsFromGlobalStorage file key w).2).1 = None
  ∧ (files w !! getHashedFileName key = None →
     (getStoredContents file None w).1 = Some c
     ∧ (getStoredContents file None (getStoredContents file None w).2).1
       = (getStoredContentsFromLocalStorage file key w).1).
Proof.
  cbn zeta. set (key := getStaticStorageKey file). intros Hhit.
  assert (Hgone : ∀ w0, (getStoredContentsFromGlobalStorage file key w0).1 = Some c →
            ∀ w', globalStorage w' = globalStorage (getStoredContentsFromGlobalStorage file key w0).2 →
            getStoredContentsFromGlobalStorage file key w' = (None, w')).
  { intros w0 Hh w' Hg.
    destruct (getStoredContentsFromGlobalStorage_hit file key w0 c Hh) as [d Hd].
    pose proof (getStoredContentsFromGlobalStorage_stores file key w0) as (_ & _ & Hg0).
    rewrite Hd in Hg0. rewrite Hg0 in Hg.
    unfold getStoredContentsFromGlobalStorage.
    rewrite Hg, transferStorage_lookup. unfold key.
    by rewrite getStaticStorageKey_prefix. }
  split; [by rewrite (Hgone w Hhit)|].
  intros Hnofile.
  assert (Hfile : ∀ w', files w' = files w →
            getStoredContentsFromFile file key w' = (None, w')).
  { intros w' Hf. unfold getStoredContentsFromFile, readHotExitFile, readFile.
    by rewrite Hf, Hnofile. }
  pose proof (getStoredContents_unfold file None w) as Hq. cbn zeta in Hq.
  simpl orElse in Hq. fold key in Hq.
  rewrite Hfile in Hq by done. simpl in Hq. rewrite Hhit in Hq.
  rewrite Hq. simpl. split; [done|].
  set (w1 := (getStoredContentsFromGlobalStorage file key w).2).
  pose proof (getStoredContentsFromGlobalStorage_stores file key w) as (Hf1 & Hl1 & _).
  fold w1 in Hf1, Hl1.
  pose proof (getStoredContents_unfold file None w1) as Hq1. cbn zeta in Hq1.
  simpl orElse in Hq1. fold key in Hq1.
  rewrite Hfile in Hq1 by done. simpl in Hq1.
  rewrite (Hgone w Hhit w1) in Hq1 by done. simpl in Hq1. rewrite Hq1.
  unfold getStoredContentsFromLocalStorage. rewrite Hl1.
  destruct (localStorage w !! key) as [d|]; [|done]. by destruct (truthy d).
Qed.

End StoreAndResolve.

(** ** What a load does and does not touch *)

Section LoadEffects.
Context `{Services}.

(** The query changes the log and the two legacy stores, nothing else. *)
Lemma getStoredContents_frame file backupId w :
  files (getStoredContents file backupId w).2 = files w
  ∧ fsOps (getStoredContents file backupId w).2 = fsOps w
  ∧ modelContents (getStoredContents file backupId w).2 = modelContents w
  ∧ uuidCount (getStoredContents file backupId w).2 = uuidCount w.
Proof.
  rewrite getStoredContents_unfold.
  set (key := orElse backupId (getStaticStorageKey file)).
  assert (H1 : ∀ u, let u1 := (getStoredContentsFromFile file key u).2 in
            files u1 = files u ∧ fsOps u1 = fsOps u
            ∧ modelContents u1 = modelContents u ∧ uuidCount u1 = uuidCount u).
  { intros u. unfold getStoredContentsFromFile.
    destruct (readHotExitFile _ _ u) as [r|e]; [done|].
    by destruct (isFileNotFoundError e). }
  assert (H2 : ∀ u, let u1 := (getStoredContentsFromGlobalStorage file key u).2 in
            files u1 = files u ∧ fsOps u1 = fsOps u
            ∧ modelContents u1 = modelContents u ∧ uuidCount u1 = uuidCount u).
  { intros u. unfold getStoredContentsFromGlobalStorage.
    destruct (truthyData (globalStorage u !! key));
      by destruct (modifiedSince _ file _) as [[|]|]. }
  assert (H3 : ∀ u, let u1 := (getStoredContentsFromLocalStorage file key u).2 in
            files u1 = files u ∧ fsOps u1 = fsOps u
            ∧ modelContents u1 = modelContents u ∧ uuidCount u1 = uuidCount u).
  { intros u. unfold getStoredContentsFromLocalStorage.
    destruct (localStorage u !! key) as [d|]; [|done]. by destruct (truthy d). }
  specialize (H1 w). cbn zeta in *.
  destruct (getStoredContentsFromFile file key w) as [[c1|] w1]; simpl in *; [done|].
  specialize (H2 w1). cbn zeta in *.
  destruct (getStoredContentsFromGlobalStorage file key w1) as [[c2|] w2]; simpl in *.
  - destruct H1 as (? & ? & ? & ?), H2 as (? & ? & ? & ?). repeat split; congruence.
  - specialize (H3 w2). cbn zeta in *.
    destruct H1 as (? & ? & ? & ?), H2 as (? & ? & ? & ?), H3 as (? & ? & ? & ?).
    repeat split; congruence.
Qed.

(** [loadContents] changes the [uuid()] count, nothing else. *)
Lemma loadContents_frame file text dirty tc fvn w :
  let w1 := (loadContents file text dirty tc fvn w).2 in
  files w1 = files w ∧ fsOps w1 = fsOps w ∧ modelContents w1 = modelContents w
  ∧ globalStorage w1 = globalStorage w ∧ localStorage w1 = localStorage w
  ∧ logged w1 = logged w.
Proof.
  cbn zeta. unfold loadContents.
  destruct (if truthyOpt text then _ else _) as [json|e]; [|done].
  destruct (lacksCells json); [done|].
  destruct (cellsOf json) as [|cs|]; [done| |done].
  by destruct (length _ =? 0)%nat.
Qed.

(** X7. An empty backup id counts as none, and the skip flag [false] as
    absent: the load, the query, the store call and the delete do the same
    with [""] as without a backup id. *)
Theorem X7_empty_backup_id_is_none (file : Uri) (possibleContents : option string)
    (forVSCodeNotebook : option bool) (model : Model) (tok : option nat) (w : World) :
  loadFromFile file possibleContents (OptString "") forVSCodeNotebook w
  = loadFromFile file possibleContents OptUndefined forVSCodeNotebook w
  ∧ loadFromFile file possibleContents (OptBoolean false) forVSCodeNotebook w
    = loadFromFile file possibleContents OptUndefined forVSCodeNotebook w
  ∧ getStoredContents file (Some "") w = getStoredContents file None w
  ∧ storeContentsInHotExitFile model tok (Some "") w
    = storeContentsInHotExitFile model tok None w
  ∧ clearHotExit file (Some "") w = clearHotExit file None w.
Proof.
  assert (Hq : ∀ u, getStoredContents file (Some (getStaticStorageKey file)) u
                    = getStoredContents file None u).
  { intros u. unfold getStoredContents. simpl.
    by destruct (truthy (getStaticStorageKey file)). }
  split; [|done].
  unfold loadFromFile. simpl. destruct (readContents _ _ w); [|done].
  by rewrite Hq.
Qed.

(** X8. A load that does not skip reads the file system and never writes
    it: the files, the record of changing calls and the models' contents
    are what they were. *)
Theorem X8_load_without_skip_writes_no_file (file : Uri)
    (possibleContents : option string) (options : LoadOption)
    (forVSCodeNotebook : option bool) (w : World) :
  skipDirtyContentsOf options = false →
  let r := load file possibleContents options forVSCodeNotebook w in
  files r.2 = files w ∧ fsOps r.2 = fsOps w ∧ modelContents r.2 = modelContents w.
Proof.
  intros Hskip. cbn zeta. unfold load, loadFromFile. rewrite Hskip.
  destruct (readContents file possibleContents w) as [contents|ex]; [|done].
  pose proof (getStoredContents_frame file (backupIdOf file options) w) as (Hf & Ho & Hm & _).
  destruct (getStoredContents file (backupIdOf file options) w) as [d w1]. simpl in *.
  destruct (truthyOpt d).
  - pose proof (loadContents_frame file d (Some true) contents forVSCodeNotebook w1)
      as (? & ? & ? & _). cbn zeta in *. repeat split; congruence.
  - pose proof (loadContents_frame file contents None None forVSCodeNotebook w1)
      as (? & ? & ? & _). cbn zeta in *. repeat split; congruence.
Qed.

(** X9. A load with the skip flag deletes the record of the static key
    and nothing else: the legacy stores keep their entries, no other file
    changes, and the model, when one is returned, is not dirty and is built
    from the supplied or on-disk content alone. *)
Theorem X9_skip_load_deletes_static_record (file : Uri)
    (possibleContents : option string) (forVSCodeNotebook : option bool) (w : World)
    (contents : option string) :
  readContents file possibleContents w = Ok contents →
  let p := getHashedFileName (getStaticStorageKey file) in
  let r := load file possibleContents (OptBoolean true) forVSCodeNotebook w in
  files r.2 = delete p (files w)
  ∧ globalStorage r.2 = globalStorage w
  ∧ localStorage r.2 = localStorage w
  ∧ r.1 = (loadContents file contents None None forVSCodeNotebook w).1
  ∧ match r.1 with Ok m => initiallyDirty m = Some false | Thrown _ => True end.
Proof.
  intros Hr. cbn zeta. unfold load, loadFromFile. rewrite Hr. simpl.
  unfold clearHotExit. simpl. rewrite writeToStorage_delete by done.
  set (p := getHashedFileName (getStaticStorageKey file)).
  set (w1 := recordOp (OpDeleteFile p) _).
  pose proof (loadContents_frame file contents None None forVSCodeNotebook w1)
    as (Hf & _ & _ & Hg & Hl & _). cbn zeta in *.
  split; [by rewrite Hf|]. split; [by rewrite Hg|]. split; [by rewrite Hl|].
  assert (Hsame : (loadContents file contents None None forVSCodeNotebook w1).1
                  = (loadContents file contents None None forVSCodeNotebook w).1).
  { unfold loadContents.
    destruct (if truthyOpt contents then _ else _) as [json|e]; [|done].
    destruct (lacksCells json); [done|].
    destruct (cellsOf json) as [|cs|]; [done| |done].
    by destruct (length _ =? 0)%nat. }
  split; [exact Hsame|].
  destruct (loadContents file contents None None forVSCodeNotebook w1) as [[m|e] w2] eqn:Hl1;
    [|done].
  simpl.
  destruct (loadContents_Ok file contents None None forVSCodeNotebook w1 m)
    as (_ & _ & Hd & _); [by rewrite Hl1 | exact Hd].
Qed.

End LoadEffects.

(** ** The models a load builds *)

Section LoadedModels.
Context `{Services}.

Lemma decimal_inj n m :
  NilZero.string_of_uint (Nat.to_uint n) = NilZero.string_of_uint (Nat.to_uint m) →
  n = m.
Proof.
  intros Heq. apply Unsigned.to_uint_inj.
  assert (Hn : ∀ k, Nat.to_uint k ≠ Decimal.Nil).
  { intros k. rewrite <- (Unsigned.of_to k) at 1. rewrite Unsigned.to_of.
    apply unorm_nonnil. }
  pose proof (NilZero.usu _ (Hn n)) as H1. pose proof (NilZero.usu _ (Hn m)) as H2.
  rewrite Heq in H1. congruence.
Qed.

Lemma remapCell_id_inj i j c d : id (remapCell i c) = id (remapCell j d) → i = j.
Proof.
  unfold remapCell. simpl. intros Heq.
  apply decimal_inj. by apply (String.app_inj "NotebookImport#").
Qed.

Lemma imap_remapCell_lookup cs i c :
  cs !! i = Some c → imap remapCell cs !! i = Some (remapCell i c).
Proof. intros Hc. rewrite list_lookup_imap, Hc. done. Qed.

Lemma imap_remapCell_ids_NoDup cs : NoDup (id <$> imap remapCell cs).
Proof.
  apply NoDup_alt. intros i j x Hi Hj.
  rewrite list_lookup_fmap in Hi, Hj.
  rewrite list_lookup_imap in Hi, Hj.
  destruct (cs !! i) as [ci|]; [|done]. destruct (cs !! j) as [cj|]; [|done].
  simpl in Hi, Hj. injection Hi as Hi. injection Hj as Hj.
  apply (remapCell_id_inj i j ci cj).
  transitivity x; [exact Hi | symmetry; exact Hj].
Qed.


(** X11. The cells of a notebook keep their number and order: a text that
    parses to a non-empty cell list yields a model whose i-th cell carries
    the i-th cell's data, the identifier [NotebookImport#i], line 0 and the
    state finished; the identifiers are pairwise different; no [uuid()] is
    drawn and the state is unchanged. *)
Theorem X11_cells_are_remapped_in_order (uri : Uri) (text : string)
    (isInitiallyDirty : option bool) (trueContents : option string)
    (forVSCodeNotebook : option bool) (w : World) (j : NotebookContent)
    (cs : list CellData) :
  truthy text = true →
  parseNotebook text = Ok (Some j) →
  nbCells j = Some cs →
  cs ≠ [] →
  ∃ m, loadContents uri (Some text) isInitiallyDirty trueContents forVSCodeNotebook w
       = (Ok m, w)
       ∧ length (cells m) = length cs
       ∧ (∀ i c, cs !! i = Some c →
            cells m !! i =
            Some (mkCell ("NotebookImport#" ++ NilZero.string_of_uint (Nat.to_uint i))
                         EmptyFileName 0 finished c))
       ∧ NoDup (id <$> cells m).
Proof.
  intros Ht Hp Hc Hne.
  assert (Hv : nbCellsValue j = CellsArray cs).
  { unfold nbCells in Hc. destruct (nbCellsValue j); congruence. }
  unfold loadContents. simpl. rewrite Ht, Hp. simpl. rewrite Hv.
  simpl. rewrite length_imap.
  destruct cs as [|c0 cs]; [done|]. simpl.
  eexists. split; [reflexivity|]. simpl. split; [by rewrite length_imap|]. split.
  - intros i c Hi.
    apply (imap_remapCell_lookup (c0 :: cs) i c Hi).
  - apply (imap_remapCell_ids_NoDup (c0 :: cs)).
Qed.

(** X12. Whatever [loadContents] is given, the model it assembles has a
    cell. Either the text has cells and they are the model's, with nothing
    else changed; or there is none (no text, a falsy JSON value, an empty
    cell list) and the model has exactly one cell, the empty code cell
    under the identifier the next [uuid()] gives, and one [uuid()] is
    used up. *)
Theorem X12_loadContents_always_has_a_cell (uri : Uri) (text : option string)
    (isInitiallyDirty : option bool) (trueContents : option string)
    (forVSCodeNotebook : option bool) (w : World) :
  let r := loadContents uri text isInitiallyDirty trueContents forVSCodeNotebook w in
  match r.1 with
  | Ok m =>
    cells m ≠ []
    ∧ ((∃ cs, cs ≠ [] ∧ notebookJson m ≫= nbCells = Some cs
              ∧ cells m = imap remapCell cs ∧ r.2 = w)
       ∨ (default [] (notebookJson m ≫= nbCells) = []
          ∧ cells m = [createEmptyCell (uuid (uuidCount w))]
          ∧ r.2 = setUuidCount (S (uuidCount w)) w))
  | Thrown _ => r.2 = w
  end.
Proof.
  cbn zeta.
  pose proof (loadContents_cases uri text isInitiallyDirty trueContents forVSCodeNotebook w)
    as Hc. cbn zeta in Hc.
  destruct (if truthyOpt text then _ else _) as [[j|]|e].
  - destruct (nbCellsValue j) as [|[|c cs]|] eqn:Hj.
    + by rewrite Hc.
    + destruct Hc as (m & -> & Hcells & Hjson). simpl. rewrite Hcells, Hjson.
      split; [done|]. right. simpl. unfold nbCells. by rewrite Hj.
    + destruct Hc as (m & -> & Hcells & Hjson). simpl. rewrite Hcells, Hjson.
      split; [done|]. left. exists (c :: cs). simpl. unfold nbCells. by rewrite Hj.
    + by rewrite Hc.
  - destruct Hc as (m & -> & Hcells & Hjson). simpl. rewrite Hcells, Hjson.
    split; [done|]. by right.
  - by rewrite Hc.
Qed.


End LoadedModels.

(** ** The coordinator over any sequence of events *)

Section CoordinatorRuns.
Context `{Services}.

(** X14. The two private fields stay in step. Over any sequence of
    requests, completions, edits and cancellations, [backingUp] is true
    exactly while a store call is outstanding and a request waits only
    while one is; so whenever nothing is outstanding, no request is left
    waiting. *)
Theorem X14_coordinator_fields_agree (s : Storage) (es : list Event) :
  wellFormed s →
  wellFormed (run s es)
  ∧ (inFlight (run s es) = None →
     backingUp (run s es) = false ∧ backupRequested (run s es) = None).
Proof.
  intros Hwf. pose proof (run_wellFormed s es Hwf) as Hrun.
  split; [exact Hrun|]. by apply wellFormed_idle_inv.
Qed.

(** X15. Never more writes than requests. From an idle coordinator, over
    any sequence of events, the number of [writeFile] and [deleteFile]
    calls made is at most the number of [backup] calls received. *)
Theorem X15_no_more_writes_than_requests (s : Storage) (es : list Event) :
  backingUp s = false →
  backupRequested s = None →
  inFlight s = None →
  (writes (fsOps (world (run s es))) ≤ writes (fsOps (world s)) + requests es)%nat.
Proof.
  intros Hb Hr Hi.
  assert (Hwf : wellFormed s).
  { destruct s as [w b r i]. simpl in *. subst. apply wellFormed_idle. }
  pose proof (run_budget s es Hwf) as Hbud.
  unfold owedBy at 2, waiting at 2 in Hbud. rewrite Hi, Hr in Hbud. lia.
Qed.

(** X16. Every backup settles. From any state in which the fields agree,
    six turns of the event loop with no new request leave the coordinator
    idle, and further turns change nothing; by then the write in flight
    has run to its end and a waiting request has been served by one store
    call under the static key. *)
Theorem X16_coordinator_settles (s : Storage) (n : nat) :
  wellFormed s →
  (6 ≤ n)%nat →
  let sf := drain n s in
  backingUp sf = false ∧ backupRequested sf = None ∧ inFlight sf = None
  ∧ world sf =
    match inFlight s, backupRequested s with
    | Some j, Some (model, cancellation) =>
      storeContentsInHotExitFile model (Some cancellation) None (runJob j (world s))
    | Some j, None => runJob j (world s)
    | None, _ => world s
    end.
Proof.
  intros Hwf Hn. cbn zeta.
  destruct (inFlight s) as [j|] eqn:Hj.
  - destruct (backupRequested s) as [[m c]|] eqn:Hr.
    + destruct (drain_pending_cycle s j m c Hj Hr) as (k & Hk & Hd).
      rewrite (drain_settled k n s); [by rewrite Hd | by rewrite Hd | lia].
    + destruct (drain_last_cycle s j Hj Hr) as (k & Hk & Hd).
      rewrite (drain_settled k n s); [by rewrite Hd | by rewrite Hd | lia].
  - rewrite drain_idle by done.
    destruct (wellFormed_idle_inv s Hwf Hj) as [Hb Hr]. by rewrite Hj.
Qed.

End CoordinatorRuns.

Section CoordinatorReach.
Context `{Services}.

Lemma storeContentsInHotExitFileStart_hotExitJob model tok backupId w :
  hotExitJob (storeContentsInHotExitFileStart model tok backupId w).
Proof.
  unfold storeContentsInHotExitFileStart, writeToStorageStart.
  destruct (negb _); [|done]. destruct (truthyOpt _); simpl; eauto.
Qed.

Lemma resume_hotExitJob j w :
  hotExitJob j →
  hotExitJob (resume j w).1
  ∧ globalStorage (resume j w).2 = globalStorage w
  ∧ localStorage (resume j w).2 = localStorage w
  ∧ ∀ p, (∀ key, p ≠ getHashedFileName key) → files (resume j w).2 !! p = files w !! p.
Proof.
  intros Hj. destruct j as [q c t|q c|q|].
  - simpl in *. destruct (negb _); simpl; repeat split; done.
  - simpl in *. repeat split; try done. intros p Hp. destruct Hj as [key ->].
    rewrite lookup_insert_ne; [done|]. intros Heq. by apply (Hp key).
  - rewrite resume_AwaitDeleteFile. simpl in *. repeat split; try done.
    intros p Hp. destruct Hj as [key ->].
    rewrite lookup_delete_ne; [done|]. intros Heq. by apply (Hp key).
  - simpl. repeat split; done.
Qed.

Lemma step_reach s e :
  match inFlight s with Some j => hotExitJob j | None => True end →
  match inFlight (step s e) with Some j => hotExitJob j | None => True end
  ∧ globalStorage (world (step s e)) = globalStorage (world s)
  ∧ localStorage (world (step s e)) = localStorage (world s)
  ∧ ∀ p, (∀ key, p ≠ getHashedFileName key) →
         files (world (step s e)) !! p = files (world s) !! p.
Proof.
  intros Hj. destruct e as [m c b| |m c|t|t]; simpl; try (repeat split; done).
  - unfold backup. destruct (backingUp s); simpl; repeat split; try done.
    apply storeContentsInHotExitFileStart_hotExitJob.
  - unfold progress. destruct (inFlight s) as [j|] eqn:Hjs; [|by rewrite Hjs].
    destruct (Job_Returned_dec j) as [->|Hne].
    + unfold backupFinally. destruct (backupRequested s) as [[m c]|]; simpl;
        repeat split; try done.
      apply storeContentsInHotExitFileStart_hotExitJob.
    + assert (Hp : progress s = mkStorage (resume j (world s)).2 (backingUp s)
                                  (backupRequested s) (Some (resume j (world s)).1))
        by (by apply progress_resume).
      unfold progress in Hp. rewrite Hjs in Hp.
      pose proof (resume_hotExitJob j (world s) Hj) as (Hj' & Hg & Hl & Hf).
      destruct j; try done; rewrite Hp; simpl; repeat split; done.
Qed.

(** X17. Backups stay in the hot-exit store. Whatever requests,
    completions, edits and cancellations occur, a file whose path is not
    the hashed file name of some key is never created, changed or deleted
    by the coordinator (the document's own file among them), and the two
    legacy stores are never touched. *)
Theorem X17_backups_touch_only_hot_exit_files (s : Storage) (es : list Event) :
  match inFlight s with Some j => hotExitJob j | None => True end →
  globalStorage (world (run s es)) = globalStorage (world s)
  ∧ localStorage (world (run s es)) = localStorage (world s)
  ∧ ∀ p, (∀ key, p ≠ getHashedFileName key) →
         files (world (run s es)) !! p = files (world s) !! p.
Proof.
  revert s. induction es as [|e es IH]; intros s Hj; [done|].
  change (run s (e :: es)) with (run (step s e) es).
  destruct (step_reach s e Hj) as (Hj' & Hg & Hl & Hf).
  destruct (IH (step s e) Hj') as (Hg' & Hl' & Hf').
  split; [congruence|]. split; [congruence|].
  intros p Hp. rewrite Hf' by done. by apply Hf.
Qed.


End CoordinatorReach.

(** ** Saving, backup ids and telemetry *)

Section Saving.
Context `{Services} `{Platform}.

(** X19. [save] writes the document and leaves its backup where it is;
    what makes the backup harmless is the time stamp alone. After a save
    of a document of scheme [file], the document's file holds the model's
    content, the hot-exit file still holds its record, and the file store
    offers that record's content again exactly when its non-zero time is
    not earlier than the time of the save. *)
Theorem X19_save_outdates_older_backups (model : Model) (e : Editor) (key text : string)
    (c : option string) (T : Z) :
  scheme (modelFile model) = "file" →
  fsPath (modelFile model) ≠ getHashedFileName key →
  readFile (getHashedFileName key) (edWorld e) = Ok text →
  parseHotExit text = Ok (Some (mkHotExit c (Some T))) →
  T ≠ 0%Z →
  let r := save model e in
  r.1 = Ok tt
  ∧ readFile (fsPath (modelFile model)) (edWorld r.2) = Ok (getContent model (edWorld e))
  ∧ readFile (getHashedFileName key) (edWorld r.2) = Ok text
  ∧ getStoredContentsFromFile (modelFile model) key (edWorld r.2)
    = (if (clock (edWorld e) >? T)%Z then None else contentsIfAny c, edWorld r.2).
Proof.
  intros Hs Hne Hr Hp HT. cbn zeta. unfold save, writeFile. cbn [fst snd edWorld].
  set (w := edWorld e) in *. set (p := fsPath (modelFile model)) in *.
  set (q := getHashedFileName key) in *.
  set (w1 := recordOp _ (setFiles _ w)).
  assert (Hp1 : files w1 !! p = Some (mkFile (getContent model w) (clock w)))
    by apply lookup_insert_eq.
  assert (Hq1 : files w1 !! q = files w !! q) by (by apply lookup_insert_ne).
  assert (Hrq : readFile q w1 = Ok text) by (unfold readFile in *; by rewrite Hq1).
  split; [done|]. split; [unfold readFile; by rewrite Hp1|]. split; [exact Hrq|].
  unfold getStoredContentsFromFile, readHotExitFile. fold q. rewrite Hrq, Hp.
  cbn [mbind option_bind heLastModified heContents].
  unfold modifiedSince, statMtime. fold p. rewrite Hp1. cbn [truthyNum mtime default].
  replace (T =? 0)%Z with false by (symmetry; by apply Z.eqb_neq).
  rewrite Hs. cbn [negb andb].
  change (("file" =? "file")%string) with true.
  change (Datatypes.id T) with T.
  by destruct (clock w >? T)%Z.
Qed.

(** X20. [saveAs] to another path writes the new file and leaves the
    original alone: a later read of the new document returns the model's
    content, the file of the old identity is what it was, one [savedAs]
    event carries the new and the old identity, and trust is recorded for
    the new identity, only when the model is trusted. Saving as to the
    document's own identity changes the file system as [save] does. *)
Theorem X20_saveAs_keeps_the_original (model : Model) (target : Uri)
    (possibleContents : option string) (e : Editor) :
  fsPath target ≠ fsPath (modelFile model) →
  isUntitledFile target = false →
  let r := saveAs model target e in
  let contents := getContent model (edWorld e) in
  r.1 = Ok tt
  ∧ readContents target possibleContents (edWorld r.2) = Ok (Some contents)
  ∧ files (edWorld r.2) !! fsPath (modelFile model)
    = files (edWorld e) !! fsPath (modelFile model)
  ∧ savedAsFired r.2 = (target, modelFile model) :: savedAsFired e
  ∧ trustCalls r.2
    = ((if isTrusted model e then [(uriString target, contents)] else []) ++ trustCalls e)%list
  ∧ edWorld (saveAs model (modelFile model) e).2 = edWorld (save model e).2.
Proof.
  intros Hne Hu. cbn zeta. unfold saveAs, save, writeFile. cbn [fst snd edWorld].
  split; [done|]. split.
  { unfold readContents, readFile. rewrite Hu. cbn [recordOp setFiles files].
    by rewrite lookup_insert_eq. }
  split; [cbn [recordOp setFiles files]; by apply lookup_insert_ne|].
  split; [done|]. split; [|done].
  cbn [trustCalls]. by destruct (isTrusted model e).
Qed.

(** X21. A generated backup id is a key of its own. It is never empty, so
    the writer, the resolver and the delete use it and not the static key
    of the document; two ids generated one after the other for the same
    document differ when the two [uuid()] values do; and generating one
    changes no file and no store. *)
Theorem X21_backup_ids_are_keys_of_their_own (model : Model) (w : World) :
  uuid (uuidCount w) ≠ uuid (S (uuidCount w)) →
  let r1 := generateBackupId model w in
  let r2 := generateBackupId model r1.2 in
  truthy r1.1 = true
  ∧ orElse (Some r1.1) (getStaticStorageKey (modelFile model)) = r1.1
  ∧ r1.1 ≠ r2.1
  ∧ files r2.2 = files w ∧ globalStorage r2.2 = globalStorage w
  ∧ localStorage r2.2 = localStorage w.
Proof.
  intros Hu. cbn zeta. unfold generateBackupId. cbn [fst snd uuidCount setUuidCount].
  assert (Ht : truthy (pathBasename (fsPath (modelFile model)) ++ "-" ++ uuid (uuidCount w))
               = true).
  { by destruct (pathBasename (fsPath (modelFile model))). }
  split; [exact Ht|]. split; [unfold orElse; by rewrite Ht|]. split; [|done].
  intros Heq. apply String.app_inj in Heq. apply Hu. by injection Heq.
Qed.


End Saving.

(** ** From a backup to the next load *)

Section Recovery.
Context `{Services}.

(** A readable record that is not older than the document's file is what
    the query returns, and the query changes nothing. *)
Lemma getStoredContents_fresh_record file backupId w text c T :
  let key := orElse backupId (getStaticStorageKey file) in
  readFile (getHashedFileName key) w = Ok text →
  parseHotExit text = Ok (Some (mkHotExit (Some c) (Some T))) →
  truthy c = true →
  (scheme file = "file" → ∃ m, statMtime (fsPath file) w = Ok m ∧ (m ≤ T)%Z) →
  getStoredContents file backupId w = (Some c, w).
Proof.
  intros key Hr Hp Hc Hstat.
  assert (Hfresh : modifiedSince (Some T) file w = Ok false).
  { unfold modifiedSince. destruct (truthyNum (Some T)); [|done]. cbn [andb].
    destruct (String.eqb (scheme file) "file") eqn:Hs; [|done].
    apply String.eqb_eq in Hs. destruct (Hstat Hs) as (m & -> & Hle).
    f_equal. change (default 0%Z (Some T)) with T. rewrite Z.gtb_ltb. apply Z.ltb_ge. lia. }
  unfold getStoredContents. fold key.
  unfold getStoredContentsFromFile, readHotExitFile. rewrite Hr, Hp.
  cbn [mbind option_bind heLastModified heContents]. rewrite Hfresh.
  cbn [contentsIfAny]. rewrite Hc. cbn [truthyOpt]. by rewrite Hc.
Qed.

(** X23. Hot exit, end to end. Take a backup of non-empty content that is
    made without a backup id, under a token that is not cancelled, at an
    idle coordinator with no request pending, and let it run for three
    turns or more with nothing else happening; then load the same document
    with no option. The load is the dirty load of the backed-up content,
    with the text on disk as the content to check for trust; the model it
    returns is marked dirty and is trusted exactly when the text on disk
    is. It is assumed that [JSON.parse] reads back the envelope that was
    written, that the document is not untitled, that its file exists, is
    not the hot-exit file itself and was not modified after the time of
    the backup. *)
Theorem X23_backup_then_load_is_dirty (s : Storage) (model : Model) (cancellation n : nat)
    (possibleContents : option string) (forVSCodeNotebook : option bool)
    (diskText : string) (m : Z) :
  backingUp s = false →
  backupRequested s = None →
  isCancellationRequested (Some cancellation) (world s) = false →
  truthy (getContent model (world s)) = true →
  parseHotExit (stringifyHotExit (getContent model (world s)) (clock (world s)))
  = Ok (Some (mkHotExit (Some (getContent model (world s))) (Some (clock (world s))))) →
  isUntitledFile (modelFile model) = false →
  fsPath (modelFile model) ≠ getHashedFileName (getStaticStorageKey (modelFile model)) →
  files (world s) !! fsPath (modelFile model) = Some (mkFile diskText m) →
  (m ≤ clock (world s))%Z →
  (3 ≤ n)%nat →
  let sf := drain n (backup model cancellation None s) in
  let r := load (modelFile model) possibleContents OptUndefined forVSCodeNotebook (world sf) in
  inFlight sf = None
  ∧ r = loadContents (modelFile model) (Some (getContent model (world s))) (Some true)
          (Some diskText) forVSCodeNotebook (world sf)
  ∧ ∀ loaded, r.1 = Ok loaded →
      initiallyDirty loaded = Some true
      ∧ trusted loaded = isNotebookTrusted (uriString (modelFile model)) diskText.
Proof.
  intros Hb Hr Hc Ht Hparse Hu Hne Hdisk Hle Hn. cbn zeta.
  set (uri := modelFile model) in *. set (key := getStaticStorageKey uri) in *.
  set (p := getHashedFileName key) in *.
  set (c := getContent model (world s)) in *.
  set (text := stringifyHotExit c (clock (world s))) in *.
  set (s0 := backup model cancellation None s).
  assert (Hs0 : inFlight s0
                = Some (storeContentsInHotExitFileStart model (Some cancellation) None (world s))
                ∧ backupRequested s0 = None ∧ world s0 = world s).
  { unfold s0, backup. by rewrite Hb, Hr. }
  destruct Hs0 as (Hj0 & Hr0 & Hw0).
  destruct (drain_last_cycle s0 _ Hj0 Hr0) as (k & Hk & Hd).
  assert (Hsf : drain n s0 = mkStorage (storeContentsInHotExitFile model (Some cancellation)
                                          None (world s)) false None None).
  { rewrite (drain_settled k n s0); [|by rewrite Hd|lia]. rewrite Hd, Hw0. done. }
  rewrite Hsf. cbn [inFlight world]. split; [done|].
  pose proof (storeContentsInHotExitFile_write model (Some cancellation) None (world s) Hc Ht)
    as Hw. cbn zeta in Hw. cbn [orElse] in Hw. fold uri key p c text in Hw.
  set (w1 := storeContentsInHotExitFile model (Some cancellation) None (world s)) in *.
  assert (Hf1 : files w1 = <[p := mkFile text (clock (world s))]> (files (world s)))
    by (by rewrite Hw).
  assert (Hread : readContents uri possibleContents w1 = Ok (Some diskText)).
  { unfold readContents, readFile. rewrite Hu, Hf1.
    rewrite lookup_insert_ne by done. by rewrite Hdisk. }
  assert (Hq : getStoredContents uri (Some key) w1 = (Some c, w1)).
  { apply (getStoredContents_fresh_record uri (Some key) w1 text c (clock (world s))).
    - replace (orElse (Some key) (getStaticStorageKey uri)) with key
        by (unfold orElse; fold key; by destruct (truthy key)).
      fold p. unfold readFile. by rewrite Hf1, lookup_insert_eq.
    - exact Hparse.
    - exact Ht.
    - intros _. exists m. split; [|done]. unfold statMtime.
      rewrite Hf1, lookup_insert_ne by done. by rewrite Hdisk. }
  assert (Hload : load uri possibleContents OptUndefined forVSCodeNotebook w1
                  = loadContents uri (Some c) (Some true) (Some diskText) forVSCodeNotebook w1).
  { unfold load, loadFromFile. rewrite Hread.
    cbn [skipDirtyContentsOf backupIdOf]. fold key. rewrite Hq. cbn [truthyOpt].
    by rewrite Ht. }
  split; [exact Hload|]. rewrite Hload. intros loaded Hl.
  destruct (loadContents_Ok uri (Some c) (Some true) (Some diskText) forVSCodeNotebook w1
              loaded Hl) as (_ & _ & Hd1 & _ & Htr).
  split; [exact Hd1|]. rewrite Htr, Hu.
  rewrite bool_decide_eq_false_2 by done. cbn [orb default andb].
  by rewrite bool_decide_eq_true_2.
Qed.

End Recovery.

(** ** The further properties on the small instance *)

Section FurtherExamples.
Import Demo Sample.

(** The editor holds ["dirty"] at time 100 for a notebook last modified at
    time 5: what the writer stores is what the resolver returns. *)
Lemma X1_store_then_resolve_witness :
  let w := holding "dirty" (onDisk oneCell 5 (setClock 100 emptyWorld)) in
  let w1 := @storeContentsInHotExitFile services model1 None None w in
  @getStoredContents services nb None w1 = (Some "dirty", w1).
Proof.
  cbn zeta.
  apply (@X1_store_then_resolve services model1 None None
           (holding "dirty" (onDisk oneCell 5 (setClock 100 emptyWorld)))).
  - reflexivity.
  - reflexivity.
  - vm_compute. reflexivity.
  - intros _. exists 5%Z. split; [vm_compute; reflexivity | vm_compute; discriminate].
Defined.

(** A record under a backup id is deleted; the query under that id then
    finds nothing. *)
Lemma X2_delete_then_resolve_witness :
  let w := hotExit backupId1 "dirty" 10 (onDisk oneCell 5 emptyWorld) in
  let w1 := @deleteBackup services model1 backupId1 w in
  files w !! hashed backupId1 = Some (mkFile (stringify "dirty" 10) 10)
  ∧ files w1 !! hashed backupId1 = None
  ∧ @getStoredContents services nb (Some backupId1) w1 = (None, w1).
Proof.
  cbn zeta.
  pose proof (@X2_delete_then_resolve services model1 backupId1
                (hotExit backupId1 "dirty" 10 (onDisk oneCell 5 emptyWorld)) eq_refl) as Hx.
  cbn zeta in Hx. destruct Hx as (Hf & _ & Hq).
  split; [vm_compute; reflexivity|]. split.
  - rewrite Hf. vm_compute. reflexivity.
  - apply Hq; vm_compute; reflexivity.
Defined.

(** No hot-exit file at all, and a record for a notebook that is not on
    disk: nothing is returned and nothing is logged. *)
Lemma X3_missing_files_are_silent_witness :
  @getStoredContentsFromFile services nb staticKey emptyWorld = (None, emptyWorld)
  ∧ (let w := hotExit staticKey "dirty" 10 emptyWorld in
     @getStoredContentsFromFile services nb staticKey w = (None, w)).
Proof.
  split.
  - apply (proj1 (@X3_missing_files_are_silent services nb staticKey emptyWorld)).
    vm_compute. reflexivity.
  - cbn zeta.
    apply (proj2 (@X3_missing_files_are_silent services nb staticKey
                    (hotExit staticKey "dirty" 10 emptyWorld))
                 (stringify "dirty" 10) (Some "dirty") 10%Z).
    + vm_compute. reflexivity.
    + vm_compute. reflexivity.
    + discriminate.
    + reflexivity.
    + vm_compute. reflexivity.
Defined.

(** The hot-exit file holds text that is not JSON and the workspace store
    has an entry: one failure is logged and the entry is returned. *)
Lemma X4_corrupt_record_falls_through_witness :
  let w := inWorkspace staticKey "older" (corrupt staticKey emptyWorld) in
  let q := @getStoredContents services nb None w in
  q.1 = Some "older"
  ∧ logged q.2 = [mkLog ("Exception reading from temporary storage for " ++ staticKey)
                        (Some (SyntaxError "garbage"))].
Proof.
  cbn zeta.
  pose proof (@X4_corrupt_record_falls_through services nb None
                (inWorkspace staticKey "older" (corrupt staticKey emptyWorld))
                "garbage" (SyntaxError "garbage")
                ltac:(vm_compute; reflexivity) ltac:(vm_compute; reflexivity) eq_refl) as Hx.
  cbn zeta in Hx. destruct Hx as (_ & Hq). rewrite Hq.
  vm_compute. split; reflexivity.
Defined.

(** The global store holds a bare string for this notebook and a record
    for another one: the query yields nothing, and both entries are gone. *)
Lemma X5_global_find_sweeps_all_witness :
  let w := inGlobal staticKey (MString "old text")
             (inGlobal (getStaticStorageKey missing) (MRecord (Some "other") None)
                emptyWorld) in
  let r := getStoredContentsFromGlobalStorage nb staticKey w in
  r.1 = None
  ∧ globalStorage w !! getStaticStorageKey missing = Some (MRecord (Some "other") None)
  ∧ globalStorage r.2 !! getStaticStorageKey missing = None
  ∧ globalStorage r.2 !! NotebookTransferKey = Some (MBool true).
Proof.
  cbn zeta.
  pose proof (X5_global_find_sweeps_all nb staticKey
                (inGlobal staticKey (MString "old text")
                   (inGlobal (getStaticStorageKey missing) (MRecord (Some "other") None)
                      emptyWorld))
                (MString "old text") ltac:(vm_compute; reflexivity) eq_refl) as Hx.
  cbn zeta in Hx. destruct Hx as (Hg & _ & Hflag & Hnone).
  split; [by apply Hnone|]. split; [vm_compute; reflexivity|].
  split; [rewrite Hg; vm_compute; reflexivity | exact Hflag].
Defined.

(** A record in the global store and an entry in the workspace store: the
    first query returns the global content, the second the workspace
    entry. *)
Lemma X6_global_content_once_witness :
  let w := inWorkspace staticKey "older"
             (inGlobal staticKey (MRecord (Some "global") (Some 100%Z))
                (onDisk oneCell 20 emptyWorld)) in
  let q := @getStoredContents services nb None w in
  q.1 = Some "global"
  ∧ (@getStoredContents services nb None q.2).1 = Some "older".
Proof.
  cbn zeta.
  pose proof (@X6_global_content_once services nb
                (inWorkspace staticKey "older"
                   (inGlobal staticKey (MRecord (Some "global") (Some 100%Z))
                      (onDisk oneCell 20 emptyWorld)))
                "global" ltac:(vm_compute; reflexivity)) as Hx.
  destruct Hx as (_ & Hq). destruct Hq as (H1 & H2); [vm_compute; reflexivity|].
  split; [exact H1|]. rewrite H2. vm_compute. reflexivity.
Defined.

(** A plain load with a fresh record in the file store: dirty content is
    found, and no file is written or deleted. *)
Lemma X8_load_without_skip_writes_no_file_witness :
  let w := hotExit staticKey "dirty" 100 (onDisk oneCell 20 emptyWorld) in
  let r := @load services nb None OptUndefined None w in
  files r.2 = files w ∧ fsOps r.2 = [] ∧ modelContents r.2 = modelContents w.
Proof.
  cbn zeta.
  apply (@X8_load_without_skip_writes_no_file services nb None OptUndefined None
           (hotExit staticKey "dirty" 100 (onDisk oneCell 20 emptyWorld))).
  reflexivity.
Defined.

(** A load with the skip flag over a fresh record: the record is deleted
    and the model is built from the text on disk. *)
Lemma X9_skip_load_deletes_static_record_witness :
  let w := inWorkspace staticKey "older"
             (hotExit staticKey "dirty" 100 (onDisk oneCell 20 emptyWorld)) in
  let r := @load services nb None (OptBoolean true) None w in
  files r.2 !! hashed staticKey = None
  ∧ localStorage r.2 !! staticKey = Some "older"
  ∧ match r.1 with
    | Ok m => initiallyDirty m = Some false
              ∧ notebookJson m = Some (mkNotebook (CellsArray [CodeCell "x = 1"]) (Some 3%Z))
    | Thrown _ => False
    end.
Proof.
  cbn zeta.
  pose proof (@X9_skip_load_deletes_static_record services nb None None
                (inWorkspace staticKey "older"
                   (hotExit staticKey "dirty" 100 (onDisk oneCell 20 emptyWorld)))
                (Some oneCell) ltac:(vm_compute; reflexivity)) as Hx.
  cbn zeta in Hx. destruct Hx as (Hf & _ & Hl & Hm & _).
  split; [rewrite Hf; vm_compute; reflexivity|].
  split; [rewrite Hl; vm_compute; reflexivity|].
  rewrite Hm. vm_compute. split; reflexivity.
Defined.


(** The notebook with one code cell. *)
Lemma X11_cells_are_remapped_in_order_witness :
  ∃ m, @loadContents services nb (Some oneCell) None None None emptyWorld = (Ok m, emptyWorld)
       ∧ cells m = [mkCell "NotebookImport#0" (@EmptyFileName services) 0 finished
                             (CodeCell "x = 1")].
Proof.
  destruct (@X11_cells_are_remapped_in_order services nb oneCell None None None emptyWorld
              (mkNotebook (CellsArray [CodeCell "x = 1"]) (Some 3%Z)) [CodeCell "x = 1"]
              eq_refl ltac:(vm_compute; reflexivity) eq_refl ltac:(discriminate))
    as (m & Hl & Hlen & Hcells & _).
  exists m. split; [exact Hl|].
  pose proof (Hcells 0%nat (CodeCell "x = 1") eq_refl) as H0.
  destruct (cells m) as [|c0 [|c1 cs]]; [discriminate| |discriminate].
  simpl in H0. by injection H0 as ->.
Defined.


(** The fields agree after a mixed sequence of events. *)
Lemma X14_coordinator_fields_agree_witness :
  let s := @run services (idle (holding "v0" emptyWorld)) events in
  wellFormed s ∧ backingUp s = false ∧ backupRequested s = None.
Proof.
  cbn zeta.
  assert (Hwf : wellFormed (idle (holding "v0" emptyWorld))).
  { split; [split|]; [discriminate | intros [j Hj]; discriminate | reflexivity]. }
  destruct (@X14_coordinator_fields_agree services (idle (holding "v0" emptyWorld)) events Hwf)
    as (Hrun & Hidle).
  split; [exact Hrun|]. apply Hidle. vm_compute. reflexivity.
Defined.

(** Three requests, at most three writes. *)
Lemma X15_no_more_writes_than_requests_witness :
  (writes (fsOps (world (@run services (idle (holding "v0" emptyWorld)) events))) ≤ 3)%nat.
Proof.
  apply (@X15_no_more_writes_than_requests services (idle (holding "v0" emptyWorld)) events);
    reflexivity.
Defined.

(** The burst of the coalescing example, left to run. *)
Lemma X16_coordinator_settles_witness :
  let sf := @drain services 6 burstEnd in
  backingUp sf = false ∧ backupRequested sf = None ∧ inFlight sf = None
  ∧ files (world sf) !! hashed staticKey = Some (mkFile (stringify "v2" 1000) 1000).
Proof.
  cbn zeta.
  assert (Hwf : wellFormed burstEnd).
  { split; [split|]; [intros _; vm_compute; eauto | reflexivity | discriminate]. }
  pose proof (@X16_coordinator_settles services burstEnd 6 Hwf ltac:(lia)) as Hx.
  cbn zeta in Hx. destruct Hx as (Hb & Hr & Hi & Hw).
  split; [exact Hb|]. split; [exact Hr|]. split; [exact Hi|].
  rewrite Hw. vm_compute. reflexivity.
Defined.

(** The notebook's own file is not a hot-exit file and survives the
    events. *)
Lemma X17_backups_touch_only_hot_exit_files_witness :
  let s := idle (holding "v0" (onDisk oneCell 20 emptyWorld)) in
  files (world (@run services s events)) !! fsPath nb = Some (mkFile oneCell 20).
Proof.
  cbn zeta.
  destruct (@X17_backups_touch_only_hot_exit_files services
              (idle (holding "v0" (onDisk oneCell 20 emptyWorld))) events I)
    as (_ & _ & Hf).
  rewrite Hf; [vm_compute; reflexivity|].
  intros key. cbv. discriminate.
Defined.


(** A record taken at time 100; the notebook is saved at time 1000 and the
    record is no longer offered. *)
Lemma X19_save_outdates_older_backups_witness :
  let w := hotExit staticKey "dirty" 100 (holding "dirty" (onDisk oneCell 20 emptyWorld)) in
  let r := save model1 (editor w) in
  (@getStoredContentsFromFile services nb staticKey w).1 = Some "dirty"
  ∧ readFile (fsPath nb) (edWorld r.2) = Ok "dirty"
  ∧ (@getStoredContentsFromFile services nb staticKey (edWorld r.2)).1 = None.
Proof.
  cbn zeta.
  pose proof (@X19_save_outdates_older_backups services model1
                (editor (hotExit staticKey "dirty" 100
                           (holding "dirty" (onDisk oneCell 20 emptyWorld))))
                staticKey (stringify "dirty" 100) (Some "dirty") 100%Z
                eq_refl ltac:(vm_compute; discriminate) ltac:(vm_compute; reflexivity)
                ltac:(vm_compute; reflexivity) ltac:(discriminate)) as Hx.
  cbn zeta in Hx. destruct Hx as (_ & Hr & _ & Hq).
  split; [vm_compute; reflexivity|]. split; [exact Hr|]. exact (f_equal fst Hq).
Defined.

(** The notebook is saved under another name. *)
Lemma X20_saveAs_keeps_the_original_witness :
  let w := holding "dirty" (onDisk oneCell 20 emptyWorld) in
  let r := saveAs model1 copy (editor w) in
  @readContents services copy None (edWorld r.2) = Ok (Some "dirty")
  ∧ files (edWorld r.2) !! fsPath nb = Some (mkFile oneCell 20)
  ∧ savedAsFired r.2 = [(copy, nb)]
  ∧ trustCalls r.2 = [(uriString copy, "dirty")].
Proof.
  cbn zeta.
  pose proof (@X20_saveAs_keeps_the_original services model1 copy None
                (editor (holding "dirty" (onDisk oneCell 20 emptyWorld)))
                ltac:(discriminate) eq_refl) as Hx.
  cbn zeta in Hx. destruct Hx as (_ & Hr & Hf & Hs & Ht & _).
  split; [exact Hr|]. split; [exact (eq_trans Hf eq_refl)|].
  split; [exact Hs | exact Ht].
Defined.

(** Two backup ids for the same notebook. *)
Lemma X21_backup_ids_are_keys_of_their_own_witness :
  let r1 := @generateBackupId services platform model1 emptyWorld in
  let r2 := @generateBackupId services platform model1 r1.2 in
  r1.1 = "a.ipynb-uuid-0" ∧ r2.1 = "a.ipynb-uuid-1" ∧ r1.1 ≠ r2.1
  ∧ orElse (Some r1.1) staticKey = "a.ipynb-uuid-0".
Proof.
  cbn zeta.
  pose proof (@X21_backup_ids_are_keys_of_their_own services platform model1 emptyWorld
                ltac:(vm_compute; discriminate)) as Hx.
  cbn zeta in Hx. destruct Hx as (_ & Ho & Hne & _).
  split; [vm_compute; reflexivity|]. split; [vm_compute; reflexivity|].
  split; [exact Hne | exact Ho].
Defined.


(** The editor holds ["dirty"] at time 100 for the notebook with one code
    cell, which is trusted: after the backup has run, the load returns a
    dirty and trusted model of the edited content. *)
Lemma X23_backup_then_load_is_dirty_witness :
  let w := holding "dirty" (onDisk oneCell 5 (setClock 100 emptyWorld)) in
  let sf := @drain services 3 (@backup services model1 1 None (idle w)) in
  ∃ m, (@load services nb None OptUndefined None (world sf)).1 = Ok m
       ∧ initiallyDirty m = Some true
       ∧ trusted m = true
       ∧ notebookJson m = Some (mkNotebook (CellsArray [MarkdownCell "# edited"]) None).
Proof.
  cbn zeta.
  pose proof (@X23_backup_then_load_is_dirty services
                (idle (holding "dirty" (onDisk oneCell 5 (setClock 100 emptyWorld))))
                model1 1 3 None None oneCell 5%Z
                eq_refl eq_refl eq_refl eq_refl ltac:(vm_compute; reflexivity) eq_refl
                ltac:(vm_compute; discriminate) ltac:(vm_compute; reflexivity)
                ltac:(vm_compute; discriminate) ltac:(lia)) as Hx.
  cbn zeta in Hx. destruct Hx as (_ & _ & Hm).
  set (r := @load services nb None OptUndefined None _) in *.
  assert (Hok : ∃ m, r.1 = Ok m
                     ∧ notebookJson m = Some (mkNotebook (CellsArray [MarkdownCell "# edited"]) None)).
  { vm_compute. eexists. split; reflexivity. }
  destruct Hok as (m & Hok & Hj). exists m.
  destruct (Hm m Hok) as (Hd & Ht).
  split; [exact Hok|]. split; [exact Hd|]. split; [rewrite Ht; reflexivity | exact Hj].
Defined.

End FurtherExamples.
